(** * jwlib/download.py: media download, integrity checks and disk clean-up

    A shallow embedding of [jwlib/download.py].  The managed directory is a
    finite map from file names to files, the network is a script of
    responses consumed by [urlopen], and everything the program prints
    through [msg] is recorded in a trace.  Python exceptions and
    [exit] are outcomes of a small state-and-error monad. *)

From Stdlib Require Import ZArith Strings.Ascii Strings.Byte.
From stdpp Require Import base option list gmap strings fin_maps.

Local Open Scope string_scope.
Local Open Scope Z_scope.

(** ** Data *)

(** [parse.Media], the fields that [download.py] reads.  [size], [md5] and
    [date] are [None] when the catalogue did not give them. *)
Record Media := mkMedia {
  url : string;
  name : string;
  filename : string;
  size : option Z;
  md5 : option string;
  date : option Z
}.

(** [common.Settings], the fields that [download.py] reads in the functions
    below.  [rate_limit] decides the chunk size and the pauses of
    [download_file]; it is not a field here: [download_file] below is the
    function for a rate limit that gives a chunk size it can read with,
    and [transfer_loop] is its loop for any chunk size. *)
Record Settings := mkSettings {
  quiet : Z;
  keep_free : Z;
  overwrite_bad : bool;
  checksums : bool
}.

(** A file of the managed directory, the "LocalFile" of the specification
    with its "size, modification time, existence": the bytes it holds and
    its modification time in seconds, what [Path.size] and [Path.mtime] of
    [common.py] read. *)
Record file := mkFile {
  content : list byte;
  mtime : Z
}.

Definition fsize (f : file) : Z := Z.of_nat (length (content f)).

(** What [urllib.request.urlopen] and the reads that follow can do:
    refuse the request, or deliver [body] (the bytes written to the file
    before the transfer ended).  [has_length] tells whether the
    [content-length] header is present, [finished] whether the reads ended
    with an empty chunk rather than with an error, and [clock] is the time
    the file system records for the write. *)
Inductive response :=
| Refused
| Body (body : list byte) (has_length finished : bool) (clock : Z).

(** The calls of [msg] and [print], one constructor for each. *)
Inductive message :=
| ScanningLocalFiles
| LowDiskSkipping (n : string)
| Counter (num total : nat)
| SizeMismatch (f : string)
| ChecksumMismatch (f : string)
| Resuming (fn n : string)
| SizeMismatchDeleting (f : string)
| ChecksumMismatchDeleting (f : string)
| Downloading (fn n : string)
| DownloadFailed (fn : string)
| FreeSpace (space needed : Z)
| CannotFree
| LimitReachedUpToDate
| RemovingOldVideo (f : string).

(** Observable events, most recent first: messages, and HTTP requests
    with the first byte asked for in the [Range] header. *)
Inductive event :=
| Msg (m : message)
| Request (u : string) (offset : Z).

Record world := mkWorld {
  dir : gmap string file;
  net : list response;
  trace : list event
}.

Definition with_dir (g : gmap string file → gmap string file) (w : world) : world :=
  mkWorld (g (dir w)) (net w) (trace w).

Definition emit (e : event) (w : world) : world :=
  mkWorld (dir w) (net w) (e :: trace w).

(** ** Python truthiness *)

Class Truthy (A : Type) := truthy : A → bool.

#[global] Instance truthy_Z : Truthy Z := λ n, negb (n =? 0).
#[global] Instance truthy_string : Truthy string := λ s, negb (bool_decide (s = "")).
#[global] Instance truthy_option {A} `{Truthy A} : Truthy (option A) :=
  λ o, match o with Some a => truthy a | None => false end.

(** The value behind an optional number, read only under a [truthy] guard. *)
Definition val (o : option Z) : Z := default 0 o.
Definition sval (o : option string) : string := default "" o.

(** ** Exceptions, exit and the program monad *)

Inductive exn :=
| MissingTimestampError
| DiskLimitReached
| FileNotFoundError
| AssertionError
| URLError
| ConnectionError
| TypeError
| ValueError.

#[global] Instance exn_eq_dec : EqDecision exn.
Proof. solve_decision. Defined.

Inductive outcome (A : Type) :=
| Ret (a : A)
| Raise (e : exn)
| Exit (code : Z)
| OutOfFuel.
Arguments Ret {A} a.
Arguments Raise {A} e.
Arguments Exit {A} code.
Arguments OutOfFuel {A}.

Definition prog (A : Type) : Type := world → outcome A * world.

Definition ret {A} (a : A) : prog A := λ w, (Ret a, w).

Definition bind {A B} (c : prog A) (k : A → prog B) : prog B := λ w,
  match c w with
  | (Ret a, w') => k a w'
  | (Raise e, w') => (Raise e, w')
  | (Exit n, w') => (Exit n, w')
  | (OutOfFuel, w') => (OutOfFuel, w')
  end.

Declare Scope prog_scope.
Delimit Scope prog_scope with prog.
Bind Scope prog_scope with prog.
Notation "x ← y ; z" := (bind y (λ x, z))
  (at level 20, y at level 100, z at level 200, only parsing) : prog_scope.
Notation "' x ← y ; z" := (bind y (λ x, z))
  (at level 20, x pattern, y at level 100, z at level 200, only parsing) : prog_scope.
Notation "x ;; z" := (bind x (λ _, z))
  (at level 100, z at level 200, only parsing, right associativity) : prog_scope.
Local Open Scope prog_scope.

Definition raise {A} (e : exn) : prog A := λ w, (Raise e, w).
Definition exit {A} (code : Z) : prog A := λ w, (Exit code, w).
Definition out_of_fuel {A} : prog A := λ w, (OutOfFuel, w).

(** [try: c except ...:], the handlers given as a partial function of the
    exception; an exception without handler goes on, and so does [exit]. *)
Definition try_except {A} (c : prog A) (h : exn → option (prog A)) : prog A := λ w,
  match c w with
  | (Raise e, w') => match h e with Some k => k w' | None => (Raise e, w') end
  | r => r
  end.

(** A program that reads the current state. *)
Definition with_world {A} (k : world → prog A) : prog A := λ w, k w w.

(** [if b: c] *)
Definition when (b : bool) (c : prog unit) : prog unit :=
  if b then c else ret tt.

(** [b and c], where [c] is evaluated only when [b] holds. *)
Definition and_then (b : bool) (c : prog bool) : prog bool :=
  if b then c else ret false.

Definition assert (b : bool) : prog unit :=
  if b then ret tt else raise AssertionError.

Definition modify (g : world → world) : prog unit := λ w, (Ret tt, g w).

Definition msg (m : message) : prog unit := modify (emit (Msg m)).

(** ** The file system *)

(** Modelled from the spec: [Media.find_file] of [parse.py] is not among the
    sources; files are "written under the managed directory, named from the
    descriptor's filename". *)
Definition find_file (m : Media) : string := filename m.

(** [file.with_name(file.name + '.part')] *)
Definition part (f : string) : string := f +:+ ".part".

(** [pathlib.Path.exists] *)
Definition exists_ (p : string) : prog bool := λ w,
  (Ret (bool_decide (is_Some (dir w !! p))), w).

(** [pathlib.Path.stat], which fails with [FileNotFoundError] on a missing
    file. *)
Definition stat (p : string) : prog file := λ w,
  match dir w !! p with
  | Some f => (Ret f, w)
  | None => (Raise FileNotFoundError, w)
  end.

(** Modelled from the spec: the property [Path.size] of [common.py] is not
    among the sources; a local file has the attributes "size, modification
    time, existence". *)
Definition get_size (p : string) : prog Z := f ← stat p; ret (fsize f).

(** Modelled from the spec: [Path.set_mtime] of [common.py] is not among the
    sources; it is used to "stamp the publish date as mtime". *)
Definition set_mtime (p : string) (t : Z) : prog unit :=
  f ← stat p;
  modify (with_dir <[p := mkFile (content f) t]>).

(** [pathlib.Path.unlink] *)
Definition unlink (p : string) : prog unit :=
  _ ← stat p;
  modify (with_dir (delete p)).

(** [pathlib.Path.rename], which replaces the target when there is one. *)
Definition rename (p q : string) : prog unit :=
  f ← stat p;
  modify (with_dir (λ d, <[q := f]> (delete p d))).

(** [pathlib.Path.iterdir], each entry with what [stat] would give. *)
Definition iterdir : prog (list (string * file)) := λ w,
  (Ret (map_to_list (dir w)), w).

(** [open(mode)] followed by the writes of one transfer: ['ab'] keeps the
    bytes that are there, ['wb'] starts from an empty file. *)
Definition write_file (p : string) (append : bool) (data : list byte) (clock : Z)
  : prog unit :=
  modify (with_dir (λ d,
    match d !! p with
    | Some f =>
        if append
        then <[p := mkFile (content f ++ data)
                           (if bool_decide (data = []) then mtime f else clock)]> d
        else <[p := mkFile data clock]> d
    | None => <[p := mkFile data clock]> d
    end)).

(** ** The network *)

(** [urllib.request.urlopen(request)] with the header [Range: bytes=offset-]:
    the next response of the script; no response left counts as refused. *)
Definition urlopen (u : string) (offset : Z)
  : prog (list byte * bool * bool * Z) := λ w,
  match net w with
  | Body b hl c t :: rest =>
      (Ret (b, hl, c, t), mkWorld (dir w) rest (Request u offset :: trace w))
  | Refused :: rest =>
      (Raise URLError, mkWorld (dir w) rest (Request u offset :: trace w))
  | [] => (Raise URLError, emit (Request u offset) w)
  end.

Section Download.

(** What the program takes from outside: [hashlib.md5(...).hexdigest()] of
    a byte string; [Path.is_mp4] of [common.py], which is not among the
    sources, as a test on the file name; and the free space that
    [shutil.disk_usage(...).free] reports for a given content of the managed
    directory. *)
Variable hexdigest : list byte → string.
Variable is_mp4 : string → bool.
Variable disk_free : gmap string file → Z.

(** [_md5(file)] *)
Definition _md5 (p : string) : prog string := f ← stat p; ret (hexdigest (content f)).

Definition disk_usage_free : prog Z := λ w, (Ret (disk_free (dir w)), w).

(** [download_file(url, file, resume, rate_limit, progress)] for a
    [rate_limit] that gives a positive chunk size: zero, which stands for
    chunks of 1 MiB, or at least one byte a second.  The reads then deliver
    the body of the response chunk by chunk, and the bytes written are
    those of the body.  A chunk size of zero, with which nothing is read,
    and one below -1, with which the read fails in [ValueError], are not
    covered here; [transfer_loop] has them.  The progress bar and the
    pauses are left out. *)
Definition download_file (u p : string) (resume progress : bool) : prog unit :=
  ex ← exists_ p;
  let append := resume && ex in
  done_bytes ← (if append then get_size p else ret 0);
  '(data, has_length, finished, clock) ← urlopen u done_bytes;
  (if progress && negb has_length then raise TypeError else ret tt);;
  write_file p append data clock;;
  if negb finished then raise ConnectionError else ret tt.

(** [check_media(s, media)] *)
Definition check_media (s : Settings) (media : Media) : prog bool :=
  let file := find_file media in
  ex ← exists_ file;
  if negb ex then ret false else
  if overwrite_bad s then
    bad_size ← and_then (truthy (size media))
                 (sz ← get_size file; ret (negb (sz =? val (size media))));
    if bad_size then
      when (quiet s <? 2) (msg (SizeMismatch file));;
      ret false
    else
      bad_sum ← and_then (checksums s && truthy (md5 media))
                  (h ← _md5 file; ret (negb (bool_decide (h = sval (md5 media)))));
      if bad_sum then
        when (quiet s <? 2) (msg (ChecksumMismatch file));;
        ret false
      else ret true
  else ret true.

(** [download_media], lines 114-118: resume when the staging file is
    smaller than expected. *)
Definition resume_transfer (s : Settings) (media : Media) (tmpfile : string)
  : prog unit :=
  smaller ← and_then (truthy (size media))
              (sz ← get_size tmpfile; ret (sz <? val (size media)));
  if smaller then
    when (quiet s <? 2) (msg (Resuming (filename media) (name media)));;
    download_file (url media) tmpfile true (quiet s <? 1)
  else ret tt.

(** "Set timestamp to date of publishing, move": lines 134-136 and
    155-157. *)
Definition stamp_and_move (media : Media) (tmpfile file : string) : prog unit :=
  (if truthy (date media) then set_mtime tmpfile (val (date media)) else ret tt);;
  rename tmpfile file.

(** [download_media], lines 120-137.  The result is [true] when the
    function returns [True] here, [false] when control falls through to the
    regular download. *)
Definition validate_resumed (s : Settings) (media : Media) (tmpfile file : string)
  : prog bool :=
  bad_size ← and_then (truthy (size media))
               (sz ← get_size tmpfile; ret (negb (sz =? val (size media))));
  if bad_size then
    when (quiet s <? 2) (msg (SizeMismatchDeleting tmpfile));;
    unlink tmpfile;;
    ret false
  else
    bad_sum ← and_then (truthy (md5 media))
                (h ← _md5 tmpfile; ret (negb (bool_decide (h = sval (md5 media)))));
    if bad_sum then
      when (quiet s <? 2) (msg (ChecksumMismatchDeleting tmpfile));;
      unlink tmpfile;;
      ret false
    else
      stamp_and_move media tmpfile file;;
      ret true.

(** [download_media], lines 139-169: the regular download. *)
Definition regular_download (s : Settings) (media : Media) (tmpfile file : string)
  : prog bool :=
  when (quiet s <? 2) (msg (Downloading (filename media) (name media)));;
  download_file (url media) tmpfile false (quiet s <? 1);;
  nonempty ← try_except
                (sz ← get_size tmpfile;
                 if sz =? 0 then unlink tmpfile;; raise FileNotFoundError
                 else ret true)
                (λ e, match e with
                      | FileNotFoundError =>
                          Some (when (quiet s <? 2) (msg (DownloadFailed (filename media)));;
                                ret false)
                      | _ => None
                      end);
  if negb nonempty then ret false else
  stamp_and_move media tmpfile file;;
  bad_size ← and_then (truthy (size media))
               (sz ← get_size file; ret (negb (sz =? val (size media))));
  if bad_size then
    when (quiet s <? 2) (msg (SizeMismatch file));;
    ret false
  else
    bad_sum ← and_then (checksums s && truthy (md5 media))
                (h ← _md5 file; ret (negb (bool_decide (h = sval (md5 media)))));
    when (bad_sum && (quiet s <? 2)) (msg (ChecksumMismatch file));;
    ret true.

(** [download_media(s, media)] *)
Definition download_media (s : Settings) (media : Media) : prog bool :=
  let file := find_file media in
  let tmpfile := part file in
  staged ← exists_ tmpfile;
  returned ← (if staged then
                resume_transfer s media tmpfile;;
                validate_resumed s media tmpfile file
              else ret false);
  if returned then ret true else regular_download s media tmpfile file.

(** [min(l, key=key)]: the first of the smallest elements, [None] for the
    [ValueError] of an empty sequence. *)
Fixpoint min_by {A} (key : A → Z) (l : list A) : option A :=
  match l with
  | [] => None
  | x :: l' =>
      match min_by key l' with
      | Some y => if key y <? key x then Some y else Some x
      | None => Some x
      end
  end.

(** [min((f for f in s.media_dir.iterdir() if f.is_mp4()), key=lambda f: f.mtime)] *)
Definition oldest_mp4 (files : list (string * file)) : option (string * file) :=
  min_by (λ f, mtime f.2) (List.filter (λ f, is_mp4 f.1) files).

(** The [while True] loop of [disk_cleanup]; every turn that does not leave
    the loop deletes a file, so that [fuel] bounds the number of turns. *)
Fixpoint cleanup_loop (fuel : nat) (s : Settings) (reference_media : Media)
  : prog unit :=
  match fuel with
  | O => out_of_fuel
  | S fuel' =>
      space ← disk_usage_free;
      let needed := val (size reference_media) + keep_free s in
      if needed <? space then ret tt else
      when (quiet s <? 1) (msg (FreeSpace (space / 1024 ^ 2) (needed / 1024 ^ 2)));;
      if negb (truthy (date reference_media)) then raise MissingTimestampError else
      files ← iterdir;
      match oldest_mp4 files with
      | None => msg CannotFree;; exit 1
      | Some oldest =>
          if val (date reference_media) <=? mtime oldest.2 then
            when (quiet s <? 1) (msg LimitReachedUpToDate);;
            raise DiskLimitReached
          else
            when (quiet s <? 2) (msg (RemovingOldVideo oldest.1));;
            unlink oldest.1;;
            cleanup_loop fuel' s reference_media
      end
  end.

(** [disk_cleanup(s, reference_media)] *)
Definition disk_cleanup (s : Settings) (reference_media : Media) : prog unit :=
  assert (truthy (keep_free s));;
  assert (truthy (size reference_media));;
  with_world (λ w, cleanup_loop (S (length (map_to_list (dir w)))) s reference_media).

(** How one turn of the loop of [download_all] goes on after the clean-up. *)
Inductive flow := Proceed | Continue | Return.

(** The [for] loop of [download_all] over [download_list], [num] counting
    from 0 and [total] being [len(download_list)]. *)
Fixpoint download_loop (s : Settings) (total num : nat) (download_list : list Media)
  : prog unit :=
  match download_list with
  | [] => ret tt
  | media :: rest =>
      fl ← (if 0 <? keep_free s then
              try_except (disk_cleanup s media;; ret Proceed)
                (λ e, match e with
                      | MissingTimestampError =>
                          Some (when (quiet s <? 2) (msg (LowDiskSkipping (name media)));;
                                ret Continue)
                      | DiskLimitReached => Some (ret Return)
                      | _ => None
                      end)
            else ret Proceed);
      match fl with
      | Return => ret tt
      | Continue => download_loop s total (S num) rest
      | Proceed =>
          when (quiet s <? 2) (msg (Counter (S num) total));;
          download_media s media;;
          download_loop s total (S num) rest
      end
  end.

(** [[x for x in l if keep(x)]] *)
Fixpoint filter_prog {A} (keep : A → prog bool) (l : list A) : prog (list A) :=
  match l with
  | [] => ret []
  | x :: l' =>
      b ← keep x;
      l'' ← filter_prog keep l';
      ret (if b then x :: l'' else l'')
  end.

(** [download_all(s, media_list)] *)
Definition download_all (s : Settings) (media_list : list Media) : prog unit :=
  when (quiet s <? 1) (msg ScanningLocalFiles);;
  download_list ← filter_prog (λ media, ok ← check_media s media; ret (negb ok)) media_list;
  download_loop s (length download_list) 0 download_list.

(** ** The words of the specification *)

(** "expected size is known and mismatches" *)
Definition size_mismatch (media : Media) (f : file) : bool :=
  truthy (size media) && negb (fsize f =? val (size media)).

(** "the expected checksum is known and mismatches" *)
Definition checksum_mismatch (media : Media) (f : file) : bool :=
  truthy (md5 media) && negb (bool_decide (hexdigest (content f) = sval (md5 media))).

(** The operation [isAlreadyValid(settings, media)] as the specification
    words it, over the content of the managed directory. *)
Definition isAlreadyValid (s : Settings) (media : Media) (d : gmap string file) : bool :=
  match d !! find_file media with
  | None => false
  | Some f =>
      if overwrite_bad s
      then negb (size_mismatch media f || checksums s && checksum_mismatch media f)
      else true
  end.

(** "required = referenceMedia.size + floor" *)
Definition required (s : Settings) (reference_media : Media) : Z :=
  val (size reference_media) + keep_free s.

End Download.

(** The requests of a trace, most recent first. *)
Definition requests (t : list event) : list (string * Z) :=
  omap (λ e, match e with Request u o => Some (u, o) | Msg _ => None end) t.



(** ** States the program reaches *)

(** The state after [if b: msg(m)]. *)
Definition say (b : bool) (m : message) (w : world) : world :=
  if b then emit (Msg m) w else w.

(** The state after a request for [u] from byte [offset] was answered. *)
Definition asked (u : string) (offset : Z) (w : world) : world :=
  mkWorld (dir w) (tail (net w)) (Request u offset :: trace w).

(** The file a staging file becomes when it is stamped and moved. *)
Definition stamped (media : Media) (f : file) : file :=
  mkFile (content f) (if truthy (date media) then val (date media) else mtime f).

(** The state after the staging file [f] was found wrong and deleted. *)
Definition discarded (s : Settings) (media : Media) (tmpfile : string) (f : file)
    (w : world) : world :=
  with_dir (delete tmpfile)
    (say (quiet s <? 2)
       (if size_mismatch media f then SizeMismatchDeleting tmpfile
        else ChecksumMismatchDeleting tmpfile) w).

(** The state after a turn of the clean-up has reported the free space. *)
Definition noted (disk_free : gmap string file → Z) (s : Settings) (m : Media)
    (w : world) : world :=
  say (quiet s <? 1)
    (FreeSpace (disk_free (dir w) / 1024 ^ 2) (required s m / 1024 ^ 2)) w.

(** The state after a turn of the clean-up has removed the file [p]. *)
Definition evicted (disk_free : gmap string file → Z) (s : Settings) (m : Media)
    (p : string) (w : world) : world :=
  with_dir (delete p)
    (say (quiet s <? 2) (RemovingOldVideo p) (noted disk_free s m w)).

(** The directories a clean-up goes through: nothing is removed, or the
    free space is not above the required amount, the reference is dated,
    the oldest media file is older than the reference and is removed, and
    the clean-up goes on from what is left. *)
Inductive evicts_down_to (is_mp4 : string → bool) (disk_free : gmap string file → Z)
    (s : Settings) (m : Media) : gmap string file → gmap string file → Prop :=
| evicts_nothing (d : gmap string file) : evicts_down_to is_mp4 disk_free s m d d
| evicts_oldest (d d' : gmap string file) (p : string) (f : file) :
    disk_free d ≤ required s m →
    d !! p = Some f → is_mp4 p = true →
    (∀ q g, d !! q = Some g → is_mp4 q = true → mtime f ≤ mtime g) →
    truthy (date m) = true → mtime f < val (date m) →
    evicts_down_to is_mp4 disk_free s m (delete p d) d' →
    evicts_down_to is_mp4 disk_free s m d d'.


(** ** Files of other items *)

(** What a pass may do to a file that belongs to none of its items: leave
    it as it was, or, when it is a media file, remove it. *)
Definition kept_or_evicted (is_mp4 : string → bool) (p : string) (w w' : world) : Prop :=
  dir w' !! p = dir w !! p ∨ (dir w' !! p = None ∧ is_mp4 p = true).

(** [p] is neither the final file nor the staging file of [media]. *)
Definition foreign (p : string) (media : Media) : Prop :=
  p ≠ find_file media ∧ p ≠ part (find_file media).

(** ** The loops over blocks

    [_md5] and [download_file] work block by block.  The definitions above
    take the file and the body whole; here are the loops as they are
    written. *)

(** [f.read(n)] on what is left to read, for [n] not negative: the next
    [n] bytes, or fewer at the end, and what is left after them. *)
Definition read_block (n : nat) (rest : list byte) : list byte * list byte :=
  (take n rest, drop n rest).

(** The loop of [_md5], lines 199-200: [iter(lambda: f.read(block), b"")]
    gives the blocks up to the first empty one, [hash_md5.update(chunk)]
    feeds each of them to the digest.  The state of the digest is what it
    has been fed so far: several updates count as one update with the
    concatenation. *)
Fixpoint md5_loop (fuel block : nat) (fed rest : list byte) : option (list byte) :=
  match fuel with
  | O => None
  | S fuel' =>
      let '(chunk, rest') := read_block block rest in
      if bool_decide (chunk = []) then Some fed
      else md5_loop fuel' block (fed ++ chunk) rest'
  end.

(** [_md5(file)], block by block. *)
Definition _md5_by_blocks (hexdigest : list byte → string) (p : string) : prog string :=
  f ← stat p;
  match md5_loop (S (length (content f))) 4096 [] (content f) with
  | Some fed => ret (hexdigest fed)
  | None => out_of_fuel
  end.

(** [response.read(amt)] on what is left of a body that arrives whole: up
    to [amt] bytes when [amt] is not negative, all of it when [amt] is -1,
    and [ValueError] for any other negative [amt]. *)
Definition response_read (amt : Z) (rest : list byte) : outcome (list byte * list byte) :=
  if amt <? -1 then Raise ValueError
  else if amt =? -1 then Ret (rest, [])
  else Ret (read_block (Z.to_nat amt) rest).

(** The progress bar, line 246:
    ['#' * min(70 * done_bytes // total_bytes, 70)]. *)
Definition bar (done_bytes total_bytes : Z) : list ascii :=
  replicate (Z.to_nat (Z.min (70 * done_bytes / total_bytes) 70)) "#"%char.

(** ['{:-<70}'.format(bar)] *)
Definition padded (b : list ascii) : list ascii :=
  b ++ replicate (70 - length b) "-"%char.

(** Lines 233-238: whether the bar is shown at all, given the total the
    response announces and whether [stderr] is a terminal. *)
Definition shows_progress (progress isatty : bool) (total_bytes : Z) : bool :=
  progress && negb ((total_bytes =? 0) || negb isatty).

(** What the loop of [download_file] works on: the bytes the file holds,
    [done_bytes], and the bars printed, the most recent first. *)
Definition transfer : Type := list byte * Z * list (list ascii).

(** The [while True] loop of [download_file], lines 241-258, without the
    percentage and the pauses: [rest] is what is left of the body, and the
    result is how the loop ends together with what it leaves. *)
Fixpoint transfer_loop (fuel : nat) (progress : bool) (chunk_size total_bytes : Z)
    (rest written : list byte) (done_bytes : Z) (bars : list (list ascii))
  : outcome unit * transfer :=
  match fuel with
  | O => (OutOfFuel, (written, done_bytes, bars))
  | S fuel' =>
      let bars' := if progress then padded (bar done_bytes total_bytes) :: bars else bars in
      match response_read chunk_size rest with
      | Ret (chunk, rest') =>
          let done_bytes' := done_bytes + Z.of_nat (length chunk) in
          if bool_decide (chunk = []) then (Ret tt, (written, done_bytes', bars'))
          else transfer_loop fuel' progress chunk_size total_bytes rest' (written ++ chunk)
                 done_bytes' bars'
      | Raise e => (Raise e, (written, done_bytes, bars'))
      | Exit n => (Exit n, (written, done_bytes, bars'))
      | OutOfFuel => (OutOfFuel, (written, done_bytes, bars'))
      end
  end.

(** ** Where an exception comes from *)

(** ** Scenarios

    Concrete settings, descriptors and states on which the theorems below
    are instantiated.  The digest of the scenarios is the content itself
    read as a string, a media file is one whose name ends in [.mp4], and
    the free space is what a volume of the given capacity has left. *)

Definition plain_digest (l : list byte) : string := String.string_of_list_byte l.

Definition ends_in_mp4 (p : string) : bool :=
  String.eqb (String.substring (String.length p - 4) 4 p) ".mp4".

Definition left_of (capacity : Z) (d : gmap string file) : Z :=
  capacity - map_fold (λ _ f acc, fsize f + acc) 0 d.

(** Two videos, the older one of one byte, the newer one of two. *)
Definition two_videos : world :=
  mkWorld (<["a.mp4" := mkFile [x01; x02] 10]> (<["b.mp4" := mkFile [x01] 5]> ∅)) [] [].

(** A floor of three bytes, every message printed. *)
Definition floor3 : Settings := mkSettings 0 3 false false.

(** The descriptor of [c.mp4] with the given expected size, checksum and
    publish date. *)
Definition clip (sz : option Z) (sum : option string) (d : option Z) : Media :=
  mkMedia "http://host/c.mp4" "C" "c.mp4" sz sum d.

(** A reference of two bytes, the letters [ab], published at the given
    time, or undated. *)
Definition video (d : option Z) : Media := clip (Some 2) (Some "ab") d.

(** An empty directory, and one that holds a staging file for [c.mp4]
    written at 50, before a network that will answer by [script]. *)
Definition nothing_yet (script : list response) : world := mkWorld ∅ script [].

Definition staged (data : list byte) (script : list response) : world :=
  mkWorld {["c.mp4.part" := mkFile data 50]} script [].

(** A complete answer with a [content-length] header. *)
Definition answer (data : list byte) (clock : Z) : response := Body data true true clock.

(** * Properties *)

(** ** Running programs *)

Lemma bind_Ret {A B} (c : prog A) (k : A → prog B) (w w1 : world) (a : A) :
  c w = (Ret a, w1) → bind c k w = k a w1.
Proof. unfold bind. by intros ->. Qed.

Lemma when_msg_run (b : bool) (m : message) (w : world) :
  when b (msg m) w = (Ret tt, say b m w).
Proof. by destruct b. Qed.

Lemma dir_emit (e : event) (w : world) : dir (emit e w) = dir w.
Proof. done. Qed.

Lemma dir_say (b : bool) (m : message) (w : world) : dir (say b m w) = dir w.
Proof. by destruct b. Qed.

Lemma net_say (b : bool) (m : message) (w : world) : net (say b m w) = net w.
Proof. by destruct b. Qed.

Lemma requests_say (b : bool) (m : message) (w : world) :
  requests (trace (say b m w)) = requests (trace w).
Proof. by destruct b. Qed.

Lemma stat_run (p : string) (f : file) (w : world) :
  dir w !! p = Some f → stat p w = (Ret f, w).
Proof. unfold stat. by intros ->. Qed.

Lemma get_size_run (p : string) (f : file) (w : world) :
  dir w !! p = Some f → get_size p w = (Ret (fsize f), w).
Proof. intros Hp. unfold get_size. by rewrite (bind_Ret _ _ _ _ _ (stat_run _ _ _ Hp)). Qed.

Lemma unlink_run (p : string) (f : file) (w : world) :
  dir w !! p = Some f → unlink p w = (Ret tt, with_dir (delete p) w).
Proof. intros Hp. unfold unlink. by rewrite (bind_Ret _ _ _ _ _ (stat_run _ _ _ Hp)). Qed.

Lemma set_mtime_run (p : string) (t : Z) (f : file) (w : world) :
  dir w !! p = Some f →
  set_mtime p t w = (Ret tt, with_dir <[p := mkFile (content f) t]> w).
Proof. intros Hp. unfold set_mtime. by rewrite (bind_Ret _ _ _ _ _ (stat_run _ _ _ Hp)). Qed.

Lemma rename_run (p q : string) (f : file) (w : world) :
  dir w !! p = Some f →
  rename p q w = (Ret tt, with_dir (λ d, <[q := f]> (delete p d)) w).
Proof. intros Hp. unfold rename. by rewrite (bind_Ret _ _ _ _ _ (stat_run _ _ _ Hp)). Qed.

Lemma stamp_and_move_run (media : Media) (tmpfile file_ : string) (f : file) (w : world) :
  dir w !! tmpfile = Some f →
  ∃ w', stamp_and_move media tmpfile file_ w = (Ret tt, w') ∧
        dir w' = <[file_ := stamped media f]> (delete tmpfile (dir w)) ∧
        net w' = net w ∧ trace w' = trace w.
Proof.
  intros Hp. unfold stamp_and_move, stamped.
  destruct (truthy (date media)).
  - rewrite (bind_Ret _ _ _ _ _ (set_mtime_run _ _ _ _ Hp)).
    eexists. split; [apply rename_run; simpl; apply lookup_insert_eq|].
    simpl. by rewrite delete_insert_eq.
  - rewrite (bind_Ret _ _ _ w tt) by done.
    eexists. split; [by apply rename_run|]. by destruct f.
Qed.

(** ** The smallest element *)

Lemma min_by_None {A} (key : A → Z) (l : list A) :
  min_by key l = None → l = [].
Proof.
  destruct l as [|x l]; [done|]. simpl.
  destruct (min_by key l) as [y|]; [|done]. by destruct (key y <? key x).
Qed.

Lemma min_by_Some {A} (key : A → Z) (l : list A) (x : A) :
  min_by key l = Some x → x ∈ l ∧ ∀ y, y ∈ l → key x ≤ key y.
Proof.
  revert x. induction l as [|a l IH]; intros x; simpl; [done|].
  destruct (min_by key l) as [y|] eqn:E.
  - destruct (IH y eq_refl) as [Hy Hmin].
    destruct (Z.ltb_spec (key y) (key a)); intros [= <-].
    + split; [by right|]. intros z [->|Hz]%elem_of_cons; [lia|by apply Hmin].
    + split; [by left|]. intros z [->|Hz]%elem_of_cons; [lia|].
      specialize (Hmin z Hz). lia.
  - intros [= <-]. apply min_by_None in E as ->.
    split; [by left|]. by intros z ->%list_elem_of_singleton.
Qed.

(** ** The clean-up *)

Section Cleanup.

Variable is_mp4 : string → bool.
Variable disk_free : gmap string file → Z.

#[local] Arguments oldest_mp4 : simpl never.

Lemma oldest_mp4_Some (d : gmap string file) (p : string) (f : file) :
  oldest_mp4 is_mp4 (map_to_list d) = Some (p, f) →
  d !! p = Some f ∧ is_mp4 p = true ∧
  ∀ q g, d !! q = Some g → is_mp4 q = true → mtime f ≤ mtime g.
Proof.
  unfold oldest_mp4. intros [Hin Hmin]%min_by_Some.
  apply list_elem_of_In, filter_In in Hin as [Hin Hmp4].
  apply list_elem_of_In, elem_of_map_to_list in Hin.
  split_and!; [done..|]. intros q g Hq Hg.
  apply (Hmin (q, g)), list_elem_of_In, filter_In. split; [|done].
  by apply list_elem_of_In, elem_of_map_to_list.
Qed.

Lemma oldest_mp4_None (d : gmap string file) :
  oldest_mp4 is_mp4 (map_to_list d) = None →
  ∀ q g, d !! q = Some g → is_mp4 q = false.
Proof.
  unfold oldest_mp4. intros Hnil%min_by_None q g Hq.
  destruct (is_mp4 q) eqn:E; [|done].
  assert ((q, g) ∈ List.filter (λ f, is_mp4 f.1) (map_to_list d)) as Hin.
  { apply list_elem_of_In, filter_In. split; [|done].
    by apply list_elem_of_In, elem_of_map_to_list. }
  rewrite Hnil in Hin. by apply not_elem_of_nil in Hin.
Qed.

Lemma dir_noted (s : Settings) (m : Media) (w : world) :
  dir (noted disk_free s m w) = dir w.
Proof. apply dir_say. Qed.

Lemma dir_evicted (s : Settings) (m : Media) (p : string) (w : world) :
  dir (evicted disk_free s m p w) = delete p (dir w).
Proof. unfold evicted. simpl. by rewrite dir_say, dir_noted. Qed.

(** One turn of the loop, branch by branch. *)
Lemma cleanup_loop_turn (k : nat) (s : Settings) (m : Media) (w : world) :
  cleanup_loop is_mp4 disk_free (S k) s m w =
    if required s m <? disk_free (dir w) then (Ret tt, w)
    else if negb (truthy (date m))
    then (Raise MissingTimestampError, noted disk_free s m w)
    else match oldest_mp4 is_mp4 (map_to_list (dir w)) with
         | None => (Exit 1, emit (Msg CannotFree) (noted disk_free s m w))
         | Some oldest =>
             if val (date m) <=? mtime oldest.2
             then (Raise DiskLimitReached,
                   say (quiet s <? 1) LimitReachedUpToDate (noted disk_free s m w))
             else cleanup_loop is_mp4 disk_free k s m (evicted disk_free s m oldest.1 w)
         end.
Proof.
  cbn [cleanup_loop]. unfold bind at 1, disk_usage_free at 1. fold (required s m).
  destruct (required s m <? disk_free (dir w)); [done|].
  rewrite (bind_Ret _ _ _ _ _ (when_msg_run _ _ _)). fold (noted disk_free s m w).
  destruct (negb (truthy (date m))); [done|].
  unfold bind at 1, iterdir at 1. rewrite dir_noted.
  destruct (oldest_mp4 is_mp4 (map_to_list (dir w))) as [[p f]|] eqn:Hold; [|done].
  apply oldest_mp4_Some in Hold as (Hp & _ & _). cbn [fst snd].
  destruct (val (date m) <=? mtime f).
  { by rewrite (bind_Ret _ _ _ _ _ (when_msg_run _ _ _)). }
  rewrite (bind_Ret _ _ _ _ _ (when_msg_run _ _ _)).
  by rewrite (bind_Ret _ _ _ _ _
                (unlink_run p f _ ltac:(by rewrite dir_say, dir_noted))).
Qed.

(** The clean-up only ever removes files. *)
Lemma cleanup_loop_keeps_absent (k : nat) (s : Settings) (m : Media) (w : world)
    (p : string) :
  dir w !! p = None → dir (cleanup_loop is_mp4 disk_free k s m w).2 !! p = None.
Proof.
  revert w. induction k as [|k IH]; intros w Hp; [done|].
  rewrite cleanup_loop_turn.
  repeat case_match; cbn [snd]; rewrite ?dir_emit, ?dir_say, ?dir_noted; try done.
  apply IH. rewrite dir_evicted. by rewrite lookup_delete_None; right.
Qed.

(** What the clean-up removed was a media file older than the reference. *)
Lemma cleanup_loop_removed_older (k : nat) (s : Settings) (m : Media) (w : world)
    (p : string) (f : file) :
  dir w !! p = Some f →
  dir (cleanup_loop is_mp4 disk_free k s m w).2 !! p = None →
  is_mp4 p = true ∧ truthy (date m) = true ∧ mtime f < val (date m).
Proof.
  revert w. induction k as [|k IH]; intros w Hp; [simpl; congruence|].
  rewrite cleanup_loop_turn.
  destruct (required s m <? disk_free (dir w)); [simpl; congruence|].
  destruct (truthy (date m)) eqn:Hdate; cbn [negb snd];
    [|rewrite dir_noted; congruence].
  destruct (oldest_mp4 is_mp4 (map_to_list (dir w))) as [[q g]|] eqn:Hold;
    [|cbn [snd]; rewrite dir_emit, dir_noted; congruence].
  apply oldest_mp4_Some in Hold as (Hq & Hmp4 & _). cbn [fst snd].
  destruct (Z.leb_spec (val (date m)) (mtime g)) as [|Hlt];
    [cbn [snd]; rewrite dir_say, dir_noted; congruence|].
  destruct (decide (p = q)) as [->|Hne].
  - intros _. by simplify_eq.
  - apply IH. by rewrite dir_evicted, lookup_delete_ne.
Qed.

(** The clean-up leaves the network alone. *)
Lemma cleanup_loop_offline (k : nat) (s : Settings) (m : Media) (w : world) :
  net (cleanup_loop is_mp4 disk_free k s m w).2 = net w ∧
  requests (trace (cleanup_loop is_mp4 disk_free k s m w).2) = requests (trace w).
Proof.
  revert w. induction k as [|k IH]; intros w; [done|].
  rewrite cleanup_loop_turn.
  destruct (required s m <? disk_free (dir w)); [done|].
  destruct (negb (truthy (date m)));
    [cbn [snd]; unfold noted; by rewrite net_say, requests_say|].
  destruct (oldest_mp4 is_mp4 (map_to_list (dir w))) as [[q g]|];
    [|simpl; unfold noted; by rewrite net_say, requests_say].
  cbn [fst snd]. destruct (val (date m) <=? mtime g);
    [cbn [snd]; unfold noted; by rewrite !net_say, !requests_say|].
  destruct (IH (evicted disk_free s m q w)) as [-> ->].
  unfold evicted, noted. simpl. by rewrite !net_say, !requests_say.
Qed.

(** With a dated reference the loop never raises [MissingTimestampError]. *)
Lemma cleanup_loop_dated (k : nat) (s : Settings) (m : Media) (w : world) :
  truthy (date m) = true →
  (cleanup_loop is_mp4 disk_free k s m w).1 ≠ Raise MissingTimestampError.
Proof.
  intros Hdate. revert w. induction k as [|k IH]; intros w; [done|].
  rewrite cleanup_loop_turn, Hdate. repeat case_match; first [done|apply IH].
Qed.

(** With an undated reference the loop stops in its first turn. *)
Lemma cleanup_loop_undated (k : nat) (s : Settings) (m : Media) (w : world) :
  truthy (date m) = false →
  cleanup_loop is_mp4 disk_free (S k) s m w =
    if required s m <? disk_free (dir w) then (Ret tt, w)
    else (Raise MissingTimestampError, noted disk_free s m w).
Proof. intros Hdate. by rewrite cleanup_loop_turn, Hdate. Qed.

(** The loop ends before the fuel does, when there is more fuel than
    files. *)
Lemma cleanup_loop_fuel (k : nat) (s : Settings) (m : Media) (w : world) :
  (length (map_to_list (dir w)) < k)%nat →
  (cleanup_loop is_mp4 disk_free k s m w).1 ≠ OutOfFuel.
Proof.
  revert w. induction k as [|k IH]; intros w Hk; [lia|].
  rewrite cleanup_loop_turn.
  destruct (required s m <? disk_free (dir w)); [done|].
  destruct (negb (truthy (date m))); [done|].
  destruct (oldest_mp4 is_mp4 (map_to_list (dir w))) as [[q g]|] eqn:Hold; [|done].
  apply oldest_mp4_Some in Hold as (Hq & _ & _). cbn [fst snd].
  destruct (val (date m) <=? mtime g); [done|].
  apply IH. rewrite length_map_to_list in Hk.
  rewrite dir_evicted, length_map_to_list, map_size_delete_Some by done.
  assert (base.size (dir w) ≠ 0%nat); [|lia].
  intros Hz%map_size_empty_inv. by rewrite Hz, lookup_empty in Hq.
Qed.

(** What holds of the directory the loop leaves, outcome by outcome. *)
Lemma cleanup_loop_outcome (k : nat) (s : Settings) (m : Media) (w : world) :
  let r := cleanup_loop is_mp4 disk_free k s m w in
  match r.1 with
  | Ret _ => required s m < disk_free (dir r.2)
  | Exit n =>
      n = 1 ∧ truthy (date m) = true ∧ disk_free (dir r.2) ≤ required s m ∧
      ∀ q g, dir r.2 !! q = Some g → is_mp4 q = false
  | Raise e =>
      disk_free (dir r.2) ≤ required s m ∧
      ((e = MissingTimestampError ∧ truthy (date m) = false) ∨
       (e = DiskLimitReached ∧ truthy (date m) = true ∧
        ∀ q g, dir r.2 !! q = Some g → is_mp4 q = true → val (date m) ≤ mtime g))
  | OutOfFuel => True
  end.
Proof.
  cbv zeta. revert w. induction k as [|k IH]; intros w; [done|].
  rewrite cleanup_loop_turn.
  destruct (Z.ltb_spec (required s m) (disk_free (dir w))); [done|].
  destruct (truthy (date m)) eqn:Hdate; cbn [negb fst snd].
  2: { rewrite dir_noted. split; [done|]. by left. }
  destruct (oldest_mp4 is_mp4 (map_to_list (dir w))) as [[p f]|] eqn:Hold.
  - apply oldest_mp4_Some in Hold as (Hp & Hmp4 & Hmin). cbn [fst snd].
    destruct (Z.leb_spec (val (date m)) (mtime f)); [|apply IH].
    cbn [fst snd]. rewrite dir_say, dir_noted. split; [done|]. right.
    split_and!; [done..|]. intros q g Hq Hqmp4. specialize (Hmin q g Hq Hqmp4). lia.
  - cbn [fst snd]. rewrite dir_emit, dir_noted. split_and!; [done..|].
    by apply oldest_mp4_None.
Qed.

(** The clean-up adds no file and changes none. *)
Lemma cleanup_loop_keeps_present (k : nat) (s : Settings) (m : Media) (w : world)
    (p : string) (f : file) :
  dir (cleanup_loop is_mp4 disk_free k s m w).2 !! p = Some f → dir w !! p = Some f.
Proof.
  revert w. induction k as [|k IH]; intros w; [done|].
  rewrite cleanup_loop_turn.
  repeat case_match; cbn [snd]; rewrite ?dir_emit, ?dir_say, ?dir_noted; try done.
  intros Hp%IH. rewrite dir_evicted in Hp. by apply lookup_delete_Some in Hp as [_ ?].
Qed.

(** Every removal is made when the free space is not above the required
    amount, and takes the oldest media file. *)
Lemma cleanup_loop_evicts_down_to (k : nat) (s : Settings) (m : Media) (w : world) :
  evicts_down_to is_mp4 disk_free s m (dir w)
    (dir (cleanup_loop is_mp4 disk_free k s m w).2).
Proof.
  revert w. induction k as [|k IH]; intros w; [apply evicts_nothing|].
  rewrite cleanup_loop_turn.
  destruct (Z.ltb_spec (required s m) (disk_free (dir w))); [apply evicts_nothing|].
  destruct (truthy (date m)) eqn:Hdate; cbn [negb];
    [|cbn [snd]; rewrite dir_noted; apply evicts_nothing].
  destruct (oldest_mp4 is_mp4 (map_to_list (dir w))) as [[p f]|] eqn:Hold;
    [|cbn [snd]; rewrite dir_emit, dir_noted; apply evicts_nothing].
  apply oldest_mp4_Some in Hold as (Hp & Hmp4 & Hmin). cbn [fst snd].
  destruct (Z.leb_spec (val (date m)) (mtime f));
    [cbn [snd]; rewrite dir_say, dir_noted; apply evicts_nothing|].
  apply (evicts_oldest _ _ _ _ _ _ p f); try done.
  rewrite <-(dir_evicted s m p w). apply IH.
Qed.

Lemma disk_cleanup_cases (s : Settings) (m : Media) (w : world) :
  disk_cleanup is_mp4 disk_free s m w =
    if truthy (keep_free s) && truthy (size m)
    then cleanup_loop is_mp4 disk_free (S (length (map_to_list (dir w)))) s m w
    else (Raise AssertionError, w).
Proof.
  unfold disk_cleanup, bind, assert, with_world.
  by destruct (truthy (keep_free s)), (truthy (size m)).
Qed.

Lemma disk_cleanup_run (s : Settings) (m : Media) (w : world) :
  truthy (keep_free s) = true → truthy (size m) = true →
  disk_cleanup is_mp4 disk_free s m w =
    cleanup_loop is_mp4 disk_free (S (length (map_to_list (dir w)))) s m w.
Proof. intros Hkeep Hsize. by rewrite disk_cleanup_cases, Hkeep, Hsize. Qed.

(** X1.  [disk_cleanup] always comes to an end: the loop leaves, by return,
    exception or exit, before the fuel of the model is used up. *)
Theorem disk_cleanup_terminates (s : Settings) (m : Media) (w : world) :
  (disk_cleanup is_mp4 disk_free s m w).1 ≠ OutOfFuel.
Proof.
  rewrite disk_cleanup_cases. case_match; [|done]. apply cleanup_loop_fuel. lia.
Qed.

Lemma disk_cleanup_offline (s : Settings) (m : Media) (w : world) :
  net (disk_cleanup is_mp4 disk_free s m w).2 = net w ∧
  requests (trace (disk_cleanup is_mp4 disk_free s m w).2) = requests (trace w).
Proof. rewrite disk_cleanup_cases. case_match; [|done]. apply cleanup_loop_offline. Qed.

(** [MissingTimestampError] comes before any deletion. *)
Lemma disk_cleanup_missing_timestamp (s : Settings) (m : Media) (w : world) :
  (disk_cleanup is_mp4 disk_free s m w).1 = Raise MissingTimestampError →
  truthy (date m) = false ∧ dir (disk_cleanup is_mp4 disk_free s m w).2 = dir w.
Proof.
  rewrite disk_cleanup_cases. case_match; [|done].
  destruct (truthy (date m)) eqn:Hdate.
  - intros Hraise. by apply cleanup_loop_dated in Hraise.
  - rewrite cleanup_loop_undated by done. case_match; [done|].
    intros _. split; [done|]. apply dir_noted.
Qed.

(** A turn that finds the reference no newer than the oldest media file
    raises [DiskLimitReached] and leaves the directory as it is. *)
Lemma cleanup_turn_limit (k : nat) (s : Settings) (m : Media) (w : world)
    (p : string) (f : file) :
  disk_free (dir w) ≤ required s m →
  truthy (date m) = true →
  dir w !! p = Some f → is_mp4 p = true →
  (∀ q g, dir w !! q = Some g → is_mp4 q = true → mtime f ≤ mtime g) →
  val (date m) ≤ mtime f →
  (cleanup_loop is_mp4 disk_free (S k) s m w).1 = Raise DiskLimitReached ∧
  dir (cleanup_loop is_mp4 disk_free (S k) s m w).2 = dir w.
Proof.
  intros Hspace Hdate Hp Hmp4 Hmin Hle.
  rewrite cleanup_loop_turn, Hdate.
  destruct (Z.ltb_spec (required s m) (disk_free (dir w))); [lia|]. cbn [negb].
  destruct (oldest_mp4 is_mp4 (map_to_list (dir w))) as [[q g]|] eqn:Hold.
  - apply oldest_mp4_Some in Hold as (Hq & Hqmp4 & Hqmin). cbn [fst snd].
    specialize (Hmin q g Hq Hqmp4).
    destruct (Z.leb_spec (val (date m)) (mtime g)); [|lia].
    split; [done|]. cbn [snd]. by rewrite dir_say, dir_noted.
  - apply oldest_mp4_None with (q := p) (g := f) in Hold; congruence.
Qed.

(** C1.  Whatever [disk_cleanup] deletes is a media file whose modification
    time is strictly earlier than the publish date of the reference; and
    when it has to free space for a dated reference whose publish date is
    no later than the modification time of the oldest media file, it raises
    [DiskLimitReached] and deletes nothing. *)
Theorem disk_cleanup_evicts_only_older (s : Settings) (m : Media) (w : world) :
  (∀ p f, dir w !! p = Some f →
     dir (disk_cleanup is_mp4 disk_free s m w).2 !! p = None →
     is_mp4 p = true ∧ truthy (date m) = true ∧ mtime f < val (date m)) ∧
  (∀ p f, truthy (keep_free s) = true → truthy (size m) = true →
     disk_free (dir w) ≤ required s m →
     truthy (date m) = true →
     dir w !! p = Some f → is_mp4 p = true →
     (∀ q g, dir w !! q = Some g → is_mp4 q = true → mtime f ≤ mtime g) →
     val (date m) ≤ mtime f →
     (disk_cleanup is_mp4 disk_free s m w).1 = Raise DiskLimitReached ∧
     dir (disk_cleanup is_mp4 disk_free s m w).2 = dir w).
Proof.
  split.
  - intros p f Hp. rewrite disk_cleanup_cases.
    case_match; [|cbn [snd]; congruence].
    by apply cleanup_loop_removed_older.
  - intros p f Hkeep Hsize. rewrite disk_cleanup_run by done.
    apply cleanup_turn_limit.
Qed.

(** C4, amended.  [disk_cleanup] returns at once, deleting nothing, when the
    free space is strictly greater than the required amount; when the free
    space is equal to it or smaller, the call does not return with the
    directory as it was.  The same holds of every turn: a file is removed
    only from a directory whose free space is not above the required
    amount, so that the loop returns as soon as there is room; and it
    returns normally exactly when it leaves a directory with room. *)
Theorem disk_cleanup_returns_iff_strictly_more (s : Settings) (m : Media) (w : world) :
  truthy (keep_free s) = true → truthy (size m) = true →
  (required s m < disk_free (dir w) →
     disk_cleanup is_mp4 disk_free s m w = (Ret tt, w)) ∧
  (disk_free (dir w) ≤ required s m →
     ¬ ((disk_cleanup is_mp4 disk_free s m w).1 = Ret tt ∧
        dir (disk_cleanup is_mp4 disk_free s m w).2 = dir w)) ∧
  evicts_down_to is_mp4 disk_free s m (dir w)
    (dir (disk_cleanup is_mp4 disk_free s m w).2) ∧
  ((disk_cleanup is_mp4 disk_free s m w).1 = Ret tt ↔
     required s m < disk_free (dir (disk_cleanup is_mp4 disk_free s m w).2)).
Proof.
  intros Hkeep Hsize. rewrite disk_cleanup_run by done.
  split_and!.
  - rewrite cleanup_loop_turn. intros Hcmp.
    by destruct (Z.ltb_spec (required s m) (disk_free (dir w))); [|lia].
  - rewrite cleanup_loop_turn. intros Hcmp.
    destruct (Z.ltb_spec (required s m) (disk_free (dir w))); [lia|].
    destruct (negb (truthy (date m))); [by intros [? _]|].
    destruct (oldest_mp4 is_mp4 (map_to_list (dir w))) as [[q g]|] eqn:Hold;
      [|by intros [? _]].
    apply oldest_mp4_Some in Hold as (Hq & _ & _). cbn [fst snd].
    destruct (val (date m) <=? mtime g); [by intros [? _]|].
    intros [_ Hdir].
    assert (dir w !! q = None) as Hgone; [|congruence].
    rewrite <-Hdir. apply cleanup_loop_keeps_absent.
    rewrite dir_evicted. apply lookup_delete_eq.
  - apply cleanup_loop_evicts_down_to.
  - set (k := S (length (map_to_list (dir w)))).
    pose proof (cleanup_loop_outcome k s m w) as Hout.
    pose proof (cleanup_loop_fuel k s m w ltac:(subst k; lia)) as Hfuel.
    cbv zeta in Hout.
    destruct (cleanup_loop is_mp4 disk_free k s m w).1 as [[]|e|n|]; [done| | |done].
    + split; [done|]. destruct Hout as [Hspace _]. lia.
    + split; [done|]. destruct Hout as (_ & _ & Hspace & _). lia.
Qed.

(** C5, amended.  For a reference without publish date [disk_cleanup]
    deletes nothing; it raises [MissingTimestampError] when the free space
    is not strictly greater than the required amount, and returns
    normally when it is. *)
Theorem disk_cleanup_without_date (s : Settings) (m : Media) (w : world) :
  truthy (keep_free s) = true → truthy (size m) = true →
  truthy (date m) = false →
  dir (disk_cleanup is_mp4 disk_free s m w).2 = dir w ∧
  (disk_free (dir w) ≤ required s m →
     (disk_cleanup is_mp4 disk_free s m w).1 = Raise MissingTimestampError) ∧
  (required s m < disk_free (dir w) →
     disk_cleanup is_mp4 disk_free s m w = (Ret tt, w)).
Proof.
  intros Hkeep Hsize Hdate. rewrite disk_cleanup_run by done.
  rewrite cleanup_loop_undated by done.
  destruct (Z.ltb_spec (required s m) (disk_free (dir w))).
  - split_and!; [done|lia|done].
  - split_and!; [apply dir_noted|done|lia].
Qed.

End Cleanup.

(** ** Transfers *)

(** A download that starts the file afresh, outcome by outcome. *)
Lemma download_file_fresh (u p : string) (progress : bool) (w : world) :
  download_file u p false progress w =
    match net w with
    | Body data has_length finished clock :: _ =>
        if progress && negb has_length then (Raise TypeError, asked u 0 w)
        else
          let w' := with_dir <[p := mkFile data clock]> (asked u 0 w) in
          if finished then (Ret tt, w') else (Raise ConnectionError, w')
    | _ => (Raise URLError, asked u 0 w)
    end.
Proof.
  unfold download_file, bind, exists_, urlopen, write_file, modify, ret, raise, asked, emit.
  simpl. destruct (net w) as [|[|data hl fin clock] rest]; simpl; try done.
  destruct (progress && negb hl); simpl; [done|].
  unfold with_dir; simpl. by destruct (dir w !! p), fin.
Qed.

(** A download that resumes the file [f], outcome by outcome. *)
Lemma download_file_resume (u p : string) (progress : bool) (f : file) (w : world) :
  dir w !! p = Some f →
  download_file u p true progress w =
    match net w with
    | Body data has_length finished clock :: _ =>
        if progress && negb has_length then (Raise TypeError, asked u (fsize f) w)
        else
          let f' := mkFile (content f ++ data)
                           (if bool_decide (data = []) then mtime f else clock) in
          let w' := with_dir <[p := f']> (asked u (fsize f) w) in
          if finished then (Ret tt, w') else (Raise ConnectionError, w')
    | _ => (Raise URLError, asked u (fsize f) w)
    end.
Proof.
  intros Hp.
  unfold download_file, bind, exists_, get_size, bind, stat, urlopen, write_file, modify,
    ret, raise, asked, emit.
  rewrite Hp. simpl. rewrite Hp. simpl.
  destruct (net w) as [|[|data hl fin clock] rest]; simpl; try done.
  destruct (progress && negb hl); simpl; [done|].
  unfold with_dir; simpl. rewrite Hp. by destruct fin.
Qed.

Section Transfers.

Variable hexdigest : list byte → string.

Lemma _md5_run (p : string) (f : file) (w : world) :
  dir w !! p = Some f → _md5 hexdigest p w = (Ret (hexdigest (content f)), w).
Proof. intros Hp. unfold _md5. by rewrite (bind_Ret _ _ _ _ _ (stat_run _ _ _ Hp)). Qed.

Lemma size_check_run (media : Media) (p : string) (f : file) (w : world) :
  dir w !! p = Some f →
  and_then (truthy (size media))
    (bind (get_size p) (λ sz, ret (negb (sz =? val (size media))))) w
  = (Ret (size_mismatch media f), w).
Proof.
  intros Hp. unfold and_then, size_mismatch.
  destruct (truthy (size media)); [|done].
  by rewrite (bind_Ret _ _ _ _ _ (get_size_run _ _ _ Hp)).
Qed.

Lemma checksum_check_run (b : bool) (media : Media) (p : string) (f : file) (w : world) :
  dir w !! p = Some f →
  and_then (b && truthy (md5 media))
    (bind (_md5 hexdigest p)
       (λ h, ret (negb (bool_decide (h = sval (md5 media)))))) w
  = (Ret (b && checksum_mismatch hexdigest media f), w).
Proof.
  intros Hp. unfold and_then, checksum_mismatch.
  destruct b, (truthy (md5 media)); try done.
  cbn [andb]. by rewrite (bind_Ret _ _ _ _ _ (_md5_run _ _ _ Hp)).
Qed.

(** The regular download, outcome by outcome. *)
Lemma regular_download_run (s : Settings) (media : Media) (tmpfile file_ : string)
    (w : world) :
  regular_download hexdigest s media tmpfile file_ w =
    let w0 := say (quiet s <? 2) (Downloading (filename media) (name media)) w in
    match net w with
    | Body data has_length finished clock :: _ =>
        if (quiet s <? 1) && negb has_length
        then (Raise TypeError, asked (url media) 0 w0)
        else
          let f := mkFile data clock in
          let w1 := with_dir <[tmpfile := f]> (asked (url media) 0 w0) in
          if negb finished then (Raise ConnectionError, w1)
          else if fsize f =? 0
          then (Ret false,
                say (quiet s <? 2) (DownloadFailed (filename media))
                  (with_dir (delete tmpfile) w1))
          else
            let w2 := mkWorld (<[file_ := stamped media f]> (delete tmpfile (dir w)))
                        (net w1) (trace w1) in
            if size_mismatch media f
            then (Ret false, say (quiet s <? 2) (SizeMismatch file_) w2)
            else (Ret true,
                  say (checksums s && checksum_mismatch hexdigest media f && (quiet s <? 2))
                    (ChecksumMismatch file_) w2)
    | _ => (Raise URLError, asked (url media) 0 w0)
    end.
Proof.
  unfold regular_download.
  rewrite (bind_Ret _ _ _ _ _ (when_msg_run _ _ _)).
  set (w0 := say _ _ w). unfold bind at 1. rewrite download_file_fresh.
  replace (net w0) with (net w) by (symmetry; apply net_say).
  destruct (net w) as [|[|data hl fin clock] rest]; simpl; try done.
  destruct ((quiet s <? 1) && negb hl); simpl; [done|].
  destruct fin; simpl; [|done].
  set (f := mkFile data clock). set (w1 := with_dir _ _).
  assert (dir w1 !! tmpfile = Some f) as Hf by apply lookup_insert_eq.
  unfold bind at 1, try_except.
  rewrite (bind_Ret _ _ _ _ _ (get_size_run _ _ _ Hf)).
  destruct (fsize f =? 0) eqn:Hz.
  { rewrite (bind_Ret _ _ _ _ _ (unlink_run _ _ _ Hf)). simpl.
    by rewrite (bind_Ret _ _ _ _ _ (when_msg_run _ _ _)). }
  simpl.
  destruct (stamp_and_move_run media tmpfile file_ f w1 Hf) as (w2 & Hrun & Hdir & Hnet & Htr).
  rewrite (bind_Ret _ _ _ _ _ Hrun).
  assert (w2 = mkWorld (<[file_ := stamped media f]> (delete tmpfile (dir w)))
                 (net w1) (trace w1)) as ->.
  { destruct w2 as [d2 n2 t2]; simpl in *. subst.
    f_equal. subst w1 w0. simpl. by rewrite delete_insert_eq, dir_say. }
  set (w2 := mkWorld _ _ _).
  assert (dir w2 !! file_ = Some (stamped media f)) as Hfinal by apply lookup_insert_eq.
  rewrite (bind_Ret _ _ _ _ _ (size_check_run _ _ _ _ Hfinal)).
  change (size_mismatch media (stamped media f)) with (size_mismatch media f).
  destruct (size_mismatch media f).
  { by rewrite (bind_Ret _ _ _ _ _ (when_msg_run _ _ _)). }
  rewrite (bind_Ret _ _ _ _ _ (checksum_check_run _ _ _ _ _ Hfinal)).
  change (checksum_mismatch hexdigest media (stamped media f))
    with (checksum_mismatch hexdigest media f).
  by rewrite (bind_Ret _ _ _ _ _ (when_msg_run _ _ _)).
Qed.

(** The resumption of lines 114-118 on a staging file [f]. *)
Lemma resume_transfer_run (s : Settings) (media : Media) (tmpfile : string) (f : file)
    (w : world) :
  dir w !! tmpfile = Some f →
  resume_transfer s media tmpfile w =
    if truthy (size media) && (fsize f <? val (size media))
    then download_file (url media) tmpfile true (quiet s <? 1)
           (say (quiet s <? 2) (Resuming (filename media) (name media)) w)
    else (Ret tt, w).
Proof.
  intros Hp. unfold resume_transfer.
  assert (and_then (truthy (size media))
            (bind (get_size tmpfile) (λ sz, ret (sz <? val (size media)))) w
          = (Ret (truthy (size media) && (fsize f <? val (size media))), w)) as Hsmaller.
  { unfold and_then. destruct (truthy (size media)); [|done].
    by rewrite (bind_Ret _ _ _ _ _ (get_size_run _ _ _ Hp)). }
  rewrite (bind_Ret _ _ _ _ _ Hsmaller).
  destruct (_ && _); [|done].
  by rewrite (bind_Ret _ _ _ _ _ (when_msg_run _ _ _)).
Qed.

(** A resumption that returns leaves a staging file behind. *)
Lemma resume_transfer_keeps_staging (s : Settings) (media : Media) (tmpfile : string)
    (f : file) (w w1 : world) :
  dir w !! tmpfile = Some f →
  resume_transfer s media tmpfile w = (Ret tt, w1) →
  is_Some (dir w1 !! tmpfile).
Proof.
  intros Hp. rewrite (resume_transfer_run _ _ _ _ _ Hp).
  destruct (_ && _); [|by intros [= <-]; eauto].
  rewrite (download_file_resume _ _ _ f) by by rewrite dir_say.
  rewrite net_say.
  destruct (net w) as [|[|data hl fin clock] rest]; try done.
  destruct (_ && negb hl); [done|]. destruct fin; [|done].
  intros [= <-]. simpl. rewrite lookup_insert_eq. eauto.
Qed.

(** The validation of lines 120-137 on a staging file [f]. *)
Lemma validate_resumed_run (s : Settings) (media : Media) (tmpfile file_ : string)
    (f : file) (w : world) :
  dir w !! tmpfile = Some f →
  validate_resumed hexdigest s media tmpfile file_ w =
    if size_mismatch media f
    then (Ret false,
          with_dir (delete tmpfile) (say (quiet s <? 2) (SizeMismatchDeleting tmpfile) w))
    else if checksum_mismatch hexdigest media f
    then (Ret false,
          with_dir (delete tmpfile) (say (quiet s <? 2) (ChecksumMismatchDeleting tmpfile) w))
    else (Ret true,
          mkWorld (<[file_ := stamped media f]> (delete tmpfile (dir w))) (net w) (trace w)).
Proof.
  intros Hp. unfold validate_resumed.
  rewrite (bind_Ret _ _ _ _ _ (size_check_run _ _ _ _ Hp)).
  destruct (size_mismatch media f).
  { rewrite (bind_Ret _ _ _ _ _ (when_msg_run _ _ _)).
    by rewrite (bind_Ret _ _ _ _ _ (unlink_run _ f _ ltac:(by rewrite dir_say))). }
  pose proof (checksum_check_run true media _ _ _ Hp) as Hsum. cbn [andb] in Hsum.
  rewrite (bind_Ret _ _ _ _ _ Hsum).
  destruct (checksum_mismatch hexdigest media f).
  { rewrite (bind_Ret _ _ _ _ _ (when_msg_run _ _ _)).
    by rewrite (bind_Ret _ _ _ _ _ (unlink_run _ f _ ltac:(by rewrite dir_say))). }
  destruct (stamp_and_move_run media tmpfile file_ f w Hp) as (w2 & Hrun & Hdir & Hnet & Htr).
  rewrite (bind_Ret _ _ _ _ _ Hrun). unfold ret.
  destruct w2; simpl in *; by subst.
Qed.

Lemma validate_resumed_mismatch (s : Settings) (media : Media) (tmpfile file_ : string)
    (f : file) (w : world) :
  dir w !! tmpfile = Some f →
  size_mismatch media f || checksum_mismatch hexdigest media f = true →
  validate_resumed hexdigest s media tmpfile file_ w
    = (Ret false, discarded s media tmpfile f w).
Proof.
  intros Hp Hbad. rewrite (validate_resumed_run _ _ _ _ _ _ Hp). unfold discarded.
  destruct (size_mismatch media f); [done|].
  by destruct (checksum_mismatch hexdigest media f).
Qed.

Lemma dir_discarded (s : Settings) (media : Media) (tmpfile : string) (f : file)
    (w : world) :
  dir (discarded s media tmpfile f w) = delete tmpfile (dir w).
Proof. unfold discarded. simpl. by rewrite dir_say. Qed.

Lemma requests_discarded (s : Settings) (media : Media) (tmpfile : string) (f : file)
    (w : world) :
  requests (trace (discarded s media tmpfile f w)) = requests (trace w).
Proof. unfold discarded. simpl. by rewrite requests_say. Qed.

(** [download_media] without staging file is the regular download. *)
Lemma download_media_fresh (s : Settings) (media : Media) (w : world) :
  dir w !! part (find_file media) = None →
  download_media hexdigest s media w =
    regular_download hexdigest s media (part (find_file media)) (find_file media) w.
Proof.
  intros Hp. unfold download_media, bind at 1, exists_. rewrite Hp.
  rewrite bool_decide_false by (by intros [? ?]). by unfold bind at 1, ret at 1.
Qed.

(** [download_media] with a staging file, once the resumption returned
    and the validation gave its verdict. *)
Lemma download_media_staged (s : Settings) (media : Media) (w w1 w2 : world) (returned : bool) :
  is_Some (dir w !! part (find_file media)) →
  resume_transfer s media (part (find_file media)) w = (Ret tt, w1) →
  validate_resumed hexdigest s media (part (find_file media)) (find_file media) w1
    = (Ret returned, w2) →
  download_media hexdigest s media w =
    if returned then (Ret true, w2)
    else regular_download hexdigest s media (part (find_file media)) (find_file media) w2.
Proof.
  intros Hp Hresume Hvalidate. unfold download_media, bind at 1, exists_.
  rewrite bool_decide_true by done.
  unfold bind at 1. rewrite (bind_Ret _ _ _ _ _ Hresume), Hvalidate.
  by destruct returned.
Qed.

(** An exception of the resumption is the outcome of [download_media]. *)
Lemma download_media_resume_fails (s : Settings) (media : Media) (w : world) :
  is_Some (dir w !! part (find_file media)) →
  (resume_transfer s media (part (find_file media)) w).1 ≠ Ret tt →
  download_media hexdigest s media w =
    (match (resume_transfer s media (part (find_file media)) w).1 with
     | Ret _ => Ret true
     | Raise e => Raise e
     | Exit n => Exit n
     | OutOfFuel => OutOfFuel
     end, (resume_transfer s media (part (find_file media)) w).2).
Proof.
  intros Hp Hfail. unfold download_media, bind at 1, exists_.
  rewrite bool_decide_true by done.
  unfold bind at 1, bind at 1.
  by destruct (resume_transfer _ _ _ w) as [[[]| | |] w1].
Qed.

(** The regular download asks once, for the whole file. *)
Lemma regular_download_requests (s : Settings) (media : Media) (tmpfile file_ : string)
    (w : world) :
  requests (trace (regular_download hexdigest s media tmpfile file_ w).2)
    = (url media, 0) :: requests (trace w).
Proof.
  rewrite regular_download_run. cbv zeta.
  set (w0 := say _ _ w).
  assert (requests (trace w0) = requests (trace w)) as Hw0 by apply requests_say.
  repeat case_match; cbn [snd]; rewrite ?requests_say; simpl; by rewrite Hw0.
Qed.

(** A regular download that reports success has put the stamped file in
    place. *)
Lemma regular_download_stamps (s : Settings) (media : Media) (tmpfile file_ : string)
    (w : world) :
  (regular_download hexdigest s media tmpfile file_ w).1 = Ret true →
  ∃ f, dir (regular_download hexdigest s media tmpfile file_ w).2 !! file_
         = Some (stamped media f).
Proof.
  rewrite regular_download_run. cbv zeta.
  repeat case_match; cbn [fst snd]; try done.
  intros _. rewrite dir_say. eexists. apply lookup_insert_eq.
Qed.

(** The resumption of a staging file [f], outcome by outcome. *)
Lemma resume_transfer_cases (s : Settings) (media : Media) (tmpfile : string) (f : file)
    (w : world) :
  dir w !! tmpfile = Some f →
  resume_transfer s media tmpfile w =
    if truthy (size media) && (fsize f <? val (size media))
    then
      let w0 := say (quiet s <? 2) (Resuming (filename media) (name media)) w in
      match net w with
      | Body data has_length finished clock :: _ =>
          if (quiet s <? 1) && negb has_length
          then (Raise TypeError, asked (url media) (fsize f) w0)
          else
            let f' := mkFile (content f ++ data)
                             (if bool_decide (data = []) then mtime f else clock) in
            let w' := with_dir <[tmpfile := f']> (asked (url media) (fsize f) w0) in
            if finished then (Ret tt, w') else (Raise ConnectionError, w')
      | _ => (Raise URLError, asked (url media) (fsize f) w0)
      end
    else (Ret tt, w).
Proof.
  intros Hp. rewrite (resume_transfer_run _ _ _ _ _ Hp).
  destruct (_ && _); [|done].
  rewrite (download_file_resume _ _ _ f) by by rewrite dir_say.
  by rewrite net_say.
Qed.

(** The ways through [download_media]: no staging file and the regular
    download; a resumption that fails; a staging file found wrong, deleted,
    and the regular download; a staging file found right and moved. *)
Lemma download_media_cases (s : Settings) (media : Media) (w : world) :
  let file_ := find_file media in
  let tmpfile := part (find_file media) in
  (dir w !! tmpfile = None ∧
   download_media hexdigest s media w = regular_download hexdigest s media tmpfile file_ w) ∨
  (∃ f e, dir w !! tmpfile = Some f ∧
     (resume_transfer s media tmpfile w).1 = Raise e ∧
     download_media hexdigest s media w = (Raise e, (resume_transfer s media tmpfile w).2)) ∨
  (∃ f w1 f1, dir w !! tmpfile = Some f ∧
     resume_transfer s media tmpfile w = (Ret tt, w1) ∧
     dir w1 !! tmpfile = Some f1 ∧
     ((size_mismatch media f1 || checksum_mismatch hexdigest media f1 = true ∧
       download_media hexdigest s media w =
         regular_download hexdigest s media tmpfile file_ (discarded s media tmpfile f1 w1)) ∨
      (size_mismatch media f1 = false ∧ checksum_mismatch hexdigest media f1 = false ∧
       download_media hexdigest s media w =
         (Ret true, mkWorld (<[file_ := stamped media f1]> (delete tmpfile (dir w1)))
                      (net w1) (trace w1))))).
Proof.
  cbv zeta. destruct (dir w !! part (find_file media)) as [f|] eqn:Hp.
  2: { left. split; [done|]. by apply download_media_fresh. }
  right.
  destruct (resume_transfer s media (part (find_file media)) w) as [o w1] eqn:Hres.
  assert (∀ e, o = Raise e →
            download_media hexdigest s media w = (Raise e, w1)) as Hfail.
  { intros e ->.
    rewrite download_media_resume_fails by (by rewrite ?Hp, ?Hres). by rewrite Hres. }
  pose proof Hres as Hcases. rewrite (resume_transfer_cases _ _ _ _ _ Hp) in Hcases.
  destruct o as [[]|e|n|].
  - right. destruct (resume_transfer_keeps_staging _ _ _ _ _ _ Hp Hres) as [f1 Hf1].
    exists f, w1, f1. split_and!; [done..|].
    destruct (size_mismatch media f1 || checksum_mismatch hexdigest media f1) eqn:Hbad.
    + left. split; [done|].
      by rewrite (download_media_staged s media w w1 _ false (mk_is_Some _ _ Hp) Hres
                    (validate_resumed_mismatch s media _ _ f1 w1 Hf1 Hbad)).
    + right. apply orb_false_elim in Hbad as [Hsz Hsum]. split_and!; [done..|].
      pose proof (validate_resumed_run s media _ (find_file media) f1 w1 Hf1)
        as Hval.
      rewrite Hsz, Hsum in Hval.
      by rewrite (download_media_staged s media w w1 _ true (mk_is_Some _ _ Hp) Hres Hval).
  - left. exists f, e. split_and!; [done..|]. by apply Hfail.
  - exfalso. cbv zeta in Hcases. repeat case_match; simplify_eq.
  - exfalso. cbv zeta in Hcases. repeat case_match; simplify_eq.
Qed.

(** A regular download that reports success has received a complete
    body and put it, stamped, in place. *)
Lemma regular_download_success (s : Settings) (media : Media) (tmpfile file_ : string)
    (w : world) :
  (regular_download hexdigest s media tmpfile file_ w).1 = Ret true →
  ∃ data has_length clock rest,
    net w = Body data has_length true clock :: rest ∧
    dir (regular_download hexdigest s media tmpfile file_ w).2 !! file_
      = Some (stamped media (mkFile data clock)).
Proof.
  rewrite regular_download_run. cbv zeta.
  destruct (net w) as [|[|data hl fin clock] rest]; [done..|].
  destruct ((quiet s <? 1) && negb hl); [done|].
  destruct fin; [|done]. cbn [negb].
  destruct (fsize _ =? 0); [done|].
  destruct (size_mismatch media _); [done|].
  intros _. exists data, hl, clock, rest. split; [done|].
  cbn [snd]. rewrite dir_say. apply lookup_insert_eq.
Qed.

(** A resumption that returns has taken its answer, if any, from the head
    of the script, and has left a staging file that keeps its
    modification time or has that of the answer. *)
Lemma resume_transfer_returns (s : Settings) (media : Media) (tmpfile : string)
    (f f1 : file) (w w1 : world) :
  dir w !! tmpfile = Some f →
  resume_transfer s media tmpfile w = (Ret tt, w1) →
  dir w1 !! tmpfile = Some f1 →
  (∀ r, r ∈ net w1 → r ∈ net w) ∧
  (mtime f1 = mtime f ∨
   ∃ data has_length finished clock,
     Body data has_length finished clock ∈ net w ∧ mtime f1 = clock).
Proof.
  intros Hp. rewrite (resume_transfer_cases _ _ _ _ _ Hp). cbv zeta.
  destruct (_ && _); [|intros [= <-] Hf1; split; [done|left; congruence]].
  destruct (net w) as [|[|data hl fin clock] rest] eqn:Hnet; [done..|].
  destruct ((quiet s <? 1) && negb hl); [done|]. destruct fin; [|done].
  intros [= <-]. cbn [dir with_dir asked net tail]. rewrite lookup_insert_eq, net_say, Hnet.
  intros [= <-]. split; [intros r Hr; by apply list_elem_of_further|].
  cbn [mtime]. case_bool_decide; [by left|].
  right. exists data, hl, true, clock. split; [apply list_elem_of_here|done].
Qed.

(** C2, amended.  When the staging file, after the resumption if there was
    one, has the wrong size or the wrong checksum, [download_media] deletes
    it and goes on, in the same call, with the regular download from the
    first byte; its outcome is the outcome of that download. *)
Theorem resumed_mismatch_starts_over (s : Settings) (media : Media) (w w1 : world)
    (f1 : file) :
  let file_ := find_file media in
  let tmpfile := part file_ in
  is_Some (dir w !! tmpfile) →
  resume_transfer s media tmpfile w = (Ret tt, w1) →
  dir w1 !! tmpfile = Some f1 →
  size_mismatch media f1 || checksum_mismatch hexdigest media f1 = true →
  let w2 := discarded s media tmpfile f1 w1 in
  download_media hexdigest s media w = regular_download hexdigest s media tmpfile file_ w2 ∧
  dir w2 = delete tmpfile (dir w1) ∧
  requests (trace (download_media hexdigest s media w).2)
    = (url media, 0) :: requests (trace w1).
Proof.
  intros file_ tmpfile Hstaged Hresume Hf1 Hbad w2.
  pose proof (validate_resumed_mismatch s media tmpfile file_ f1 w1 Hf1 Hbad) as Hval.
  rewrite (download_media_staged s media w w1 w2 false Hstaged Hresume Hval).
  split_and!; [done|apply dir_discarded|].
  rewrite regular_download_requests. apply f_equal, requests_discarded.
Qed.

(** C8, amended.  When the descriptor has a publish date and
    [download_media] reports success, the final file carries that date as
    its modification time, whichever path was taken.  When the publish date
    is unknown and [download_media] reports success, the final file is
    promoted without being stamped: its modification time is that of the
    staging file found at the start, or the time of a write of this
    call. *)
Theorem success_carries_publish_date (s : Settings) (media : Media) (w : world) :
  (truthy (date media) = true →
   (download_media hexdigest s media w).1 = Ret true →
   ∃ f, dir (download_media hexdigest s media w).2 !! find_file media = Some f ∧
        mtime f = val (date media)) ∧
  (truthy (date media) = false →
   (download_media hexdigest s media w).1 = Ret true →
   ∃ f, dir (download_media hexdigest s media w).2 !! find_file media = Some f ∧
        ((∃ f0, dir w !! part (find_file media) = Some f0 ∧ mtime f = mtime f0) ∨
         (∃ data has_length finished clock,
            Body data has_length finished clock ∈ net w ∧ mtime f = clock))).
Proof.
  split; intros Hdate.
  - assert (∀ f, mtime (stamped media f) = val (date media)) as Hstamp
      by (intros f; unfold stamped; by rewrite Hdate).
    destruct (download_media_cases s media w)
      as [[_ ->]|[(f & e & _ & _ & ->)|(f & w1 & f1 & _ & _ & _ & [[_ ->]|(_ & _ & ->)])]].
    + intros [f' Hf']%regular_download_stamps. eauto.
    + done.
    + intros [f' Hf']%regular_download_stamps. eauto.
    + intros _. cbn [snd dir]. rewrite lookup_insert_eq. eauto.
  - assert (∀ f, stamped media f = f) as Hstamp
      by (intros [c t]; unfold stamped; by rewrite Hdate).
    destruct (download_media_cases s media w)
      as [[_ ->]|[(f & e & _ & _ & ->)
                 |(f & w1 & f1 & Hp & Hres & Hf1 & [[_ ->]|(_ & _ & ->)])]].
    + intros (data & hl & clock & rest & Hnet & Hf)%regular_download_success.
      rewrite Hstamp in Hf. eexists. split; [exact Hf|]. right.
      exists data, hl, true, clock. rewrite Hnet. split; [apply list_elem_of_here|done].
    + done.
    + destruct (resume_transfer_returns _ _ _ _ _ _ _ Hp Hres Hf1) as [Hnet1 _].
      intros (data & hl & clock & rest & Hnet & Hf)%regular_download_success.
      rewrite Hstamp in Hf. eexists. split; [exact Hf|]. right.
      exists data, hl, true, clock. split; [|done].
      apply Hnet1. unfold discarded in Hnet. cbn [net with_dir] in Hnet.
      rewrite net_say in Hnet. rewrite Hnet. apply list_elem_of_here.
    + destruct (resume_transfer_returns _ _ _ _ _ _ _ Hp Hres Hf1) as [_ Hmtime].
      intros _. cbn [snd dir]. rewrite lookup_insert_eq, Hstamp.
      eexists. split; [done|]. destruct Hmtime as [Hsame|Hwritten]; [left|by right].
      by exists f.
Qed.


(** C10, amended.  With a staging file and no expected size,
    [download_media] does not resume.  When the expected checksum is
    unknown or right, it asks nothing of the network: the staging file
    becomes the final file as it is, stamped with the publish date when
    there is one, and the result is success.  When the expected checksum is
    known and wrong, the staging file is deleted and the regular download
    follows. *)
Theorem staged_without_expected_size (s : Settings) (media : Media) (w : world) (f : file) :
  let file_ := find_file media in
  let tmpfile := part file_ in
  dir w !! tmpfile = Some f →
  truthy (size media) = false →
  resume_transfer s media tmpfile w = (Ret tt, w) ∧
  (checksum_mismatch hexdigest media f = false →
     download_media hexdigest s media w =
       (Ret true,
        mkWorld (<[file_ := stamped media f]> (delete tmpfile (dir w))) (net w) (trace w))) ∧
  (checksum_mismatch hexdigest media f = true →
     download_media hexdigest s media w =
       regular_download hexdigest s media tmpfile file_
         (discarded s media tmpfile f w) ∧
     requests (trace (download_media hexdigest s media w).2)
       = (url media, 0) :: requests (trace w)).
Proof.
  intros file_ tmpfile Hp Hsize.
  assert (resume_transfer s media tmpfile w = (Ret tt, w)) as Hres
    by (by rewrite (resume_transfer_run _ _ _ _ _ Hp), Hsize).
  assert (size_mismatch media f = false) as Hsz by (unfold size_mismatch; by rewrite Hsize).
  split_and!; [done| |]; intros Hsum.
  - pose proof (validate_resumed_run s media tmpfile file_ f w Hp) as Hval.
    rewrite Hsz, Hsum in Hval.
    by rewrite (download_media_staged s media w w _ true (mk_is_Some _ _ Hp) Hres Hval).
  - rewrite (download_media_staged s media w w _ false (mk_is_Some _ _ Hp) Hres
               (validate_resumed_mismatch s media _ _ f w Hp ltac:(by rewrite Hsz, Hsum))).
    split; [done|]. rewrite regular_download_requests. apply f_equal, requests_discarded.
Qed.

(** X2.  A fresh download that completes with the bytes [data], not empty and
    of the expected size when one is known, ends in success: the final file
    holds [data], stamped, and the staging file is gone. *)
Theorem fresh_download_succeeds (s : Settings) (media : Media) (w : world)
    (data : list byte) (has_length : bool) (clock : Z) (rest : list response) :
  dir w !! part (find_file media) = None →
  net w = Body data has_length true clock :: rest →
  ((quiet s <? 1) && negb has_length) = false →
  data ≠ [] →
  size_mismatch media (mkFile data clock) = false →
  (download_media hexdigest s media w).1 = Ret true ∧
  dir (download_media hexdigest s media w).2
    = <[find_file media := stamped media (mkFile data clock)]>
        (delete (part (find_file media)) (dir w)) ∧
  requests (trace (download_media hexdigest s media w).2)
    = (url media, 0) :: requests (trace w).
Proof.
  intros Hp Hnet Hbar Hdata Hsize.
  rewrite (download_media_fresh _ _ _ Hp), regular_download_requests.
  rewrite regular_download_run, Hnet, Hbar. cbv zeta. cbn [negb].
  assert ((fsize (mkFile data clock) =? 0) = false) as ->.
  { apply Z.eqb_neq. unfold fsize. simpl. destruct data; [done|]. simpl. lia. }
  rewrite Hsize. cbn [fst snd]. by rewrite dir_say.
Qed.

(** X3.  A fresh download that completes without a single byte is a failed
    download: the empty staging file is deleted, no final file is made. *)
Theorem empty_download_fails (s : Settings) (media : Media) (w : world)
    (has_length : bool) (clock : Z) (rest : list response) :
  dir w !! part (find_file media) = None →
  net w = Body [] has_length true clock :: rest →
  ((quiet s <? 1) && negb has_length) = false →
  (download_media hexdigest s media w).1 = Ret false ∧
  dir (download_media hexdigest s media w).2 = dir w.
Proof.
  intros Hp Hnet Hbar.
  rewrite (download_media_fresh _ _ _ Hp).
  rewrite regular_download_run, Hnet, Hbar. cbv zeta. cbn [negb].
  change (fsize (mkFile [] clock) =? 0) with true. cbn [fst snd]. split; [done|].
  rewrite dir_say. simpl. rewrite dir_say, delete_insert_eq. by apply delete_id.
Qed.

End Transfers.

(** ** The loop of [download_all] *)

Section Orchestration.

Variable hexdigest : list byte → string.
Variable is_mp4 : string → bool.
Variable disk_free : gmap string file → Z.

(** One turn of the loop, by the outcome of the clean-up. *)
Lemma download_loop_turn (s : Settings) (total num : nat) (media : Media)
    (rest : list Media) (w : world) :
  0 < keep_free s →
  download_loop hexdigest is_mp4 disk_free s total num (media :: rest) w =
    let w' := (disk_cleanup is_mp4 disk_free s media w).2 in
    match (disk_cleanup is_mp4 disk_free s media w).1 with
    | Ret _ =>
        bind (when (quiet s <? 2) (msg (Counter (S num) total)))
          (λ _, bind (download_media hexdigest s media)
             (λ _, download_loop hexdigest is_mp4 disk_free s total (S num) rest)) w'
    | Raise MissingTimestampError =>
        download_loop hexdigest is_mp4 disk_free s total (S num) rest
          (say (quiet s <? 2) (LowDiskSkipping (name media)) w')
    | Raise DiskLimitReached => (Ret tt, w')
    | Raise e => (Raise e, w')
    | Exit n => (Exit n, w')
    | OutOfFuel => (OutOfFuel, w')
    end.
Proof.
  intros Hfloor. cbn [download_loop].
  destruct (Z.ltb_spec 0 (keep_free s)); [|lia].
  unfold bind at 1, try_except, bind at 1.
  destruct (disk_cleanup is_mp4 disk_free s media w) as [[[]|e|n|] w'];
    cbn [fst snd]; try done.
  destruct e; try done.
  by rewrite (bind_Ret _ _ _ _ _ (when_msg_run _ _ _)).
Qed.

(** C7.  With a floor configured: when the clean-up for an item raises
    [MissingTimestampError], the loop goes on with the next item, no file
    touched and nothing asked of the network for the skipped one; when it
    raises [DiskLimitReached], the loop returns there and then, in the
    state the clean-up left. *)
Theorem download_loop_on_cleanup_errors (s : Settings) (total num : nat) (media : Media)
    (rest : list Media) (w : world) :
  0 < keep_free s →
  ((disk_cleanup is_mp4 disk_free s media w).1 = Raise MissingTimestampError →
     ∃ w', download_loop hexdigest is_mp4 disk_free s total num (media :: rest) w
             = download_loop hexdigest is_mp4 disk_free s total (S num) rest w' ∧
           dir w' = dir w ∧ net w' = net w ∧
           requests (trace w') = requests (trace w)) ∧
  ((disk_cleanup is_mp4 disk_free s media w).1 = Raise DiskLimitReached →
     download_loop hexdigest is_mp4 disk_free s total num (media :: rest) w
       = (Ret tt, (disk_cleanup is_mp4 disk_free s media w).2) ∧
     net (disk_cleanup is_mp4 disk_free s media w).2 = net w ∧
     requests (trace (disk_cleanup is_mp4 disk_free s media w).2) = requests (trace w)).
Proof.
  intros Hfloor. rewrite download_loop_turn by done. cbv zeta.
  destruct (disk_cleanup_offline is_mp4 disk_free s media w) as [Hnet Hreq].
  split; intros Hraise.
  - destruct (disk_cleanup_missing_timestamp _ _ _ _ _ Hraise) as [_ Hdir].
    rewrite Hraise. eexists. split; [done|].
    by rewrite dir_say, net_say, requests_say.
  - by rewrite Hraise.
Qed.

(** The items [download_all] works on are those [check_media] rejects. *)
Lemma download_all_run (s : Settings) (media_list : list Media) (w : world) :
  download_all hexdigest is_mp4 disk_free s media_list w =
    bind (filter_prog (λ media, bind (check_media hexdigest s media) (λ ok, ret (negb ok)))
            media_list)
      (λ download_list,
         download_loop hexdigest is_mp4 disk_free s (length download_list) 0 download_list)
      (say (quiet s <? 1) ScanningLocalFiles w).
Proof.
  unfold download_all. by rewrite (bind_Ret _ _ _ _ _ (when_msg_run _ _ _)).
Qed.

End Orchestration.

(** ** The validity check *)

Section Validity.

Variable hexdigest : list byte → string.

(** [check_media], outcome by outcome. *)
Lemma check_media_run (s : Settings) (media : Media) (w : world) :
  check_media hexdigest s media w =
    match dir w !! find_file media with
    | None => (Ret false, w)
    | Some f =>
        if overwrite_bad s then
          if size_mismatch media f
          then (Ret false, say (quiet s <? 2) (SizeMismatch (find_file media)) w)
          else if checksums s && checksum_mismatch hexdigest media f
          then (Ret false, say (quiet s <? 2) (ChecksumMismatch (find_file media)) w)
          else (Ret true, w)
        else (Ret true, w)
    end.
Proof.
  unfold check_media. unfold bind at 1, exists_.
  destruct (dir w !! find_file media) as [f|] eqn:Hp.
  2: { by rewrite bool_decide_false by (by intros [? ?]). }
  rewrite bool_decide_true by done. cbn [negb].
  destruct (overwrite_bad s); [|done].
  rewrite (bind_Ret _ _ _ _ _ (size_check_run _ _ _ _ Hp)).
  destruct (size_mismatch media f).
  { by rewrite (bind_Ret _ _ _ _ _ (when_msg_run _ _ _)). }
  rewrite (bind_Ret _ _ _ _ _ (checksum_check_run _ _ _ _ _ _ Hp)).
  destruct (checksums s && checksum_mismatch hexdigest media f); [|done].
  by rewrite (bind_Ret _ _ _ _ _ (when_msg_run _ _ _)).
Qed.

(** C6.  [check_media] computes [isAlreadyValid] of the managed directory:
    false without final file; true when the file is there and
    [overwrite_bad] is off; with [overwrite_bad] on, false exactly when the
    expected size is known and differs, or [checksums] is on and the
    expected checksum is known and differs.  It changes no file. *)
Theorem check_media_is_isAlreadyValid (s : Settings) (media : Media) (w : world) :
  (check_media hexdigest s media w).1 = Ret (isAlreadyValid hexdigest s media (dir w)) ∧
  dir (check_media hexdigest s media w).2 = dir w ∧
  net (check_media hexdigest s media w).2 = net w.
Proof.
  rewrite check_media_run. unfold isAlreadyValid.
  destruct (dir w !! find_file media) as [f|]; [|done].
  destruct (overwrite_bad s); [|done].
  destruct (size_mismatch media f);
    [cbn [fst snd]; by rewrite dir_say, net_say|].
  destruct (checksums s && checksum_mismatch hexdigest media f);
    [cbn [fst snd]; by rewrite dir_say, net_say|done].
Qed.

End Validity.

(** ** How the clean-up ends *)

Section CleanupEnds.

Variable is_mp4 : string → bool.
Variable disk_free : gmap string file → Z.

(** The files removed are no newer than the media files kept. *)
Lemma cleanup_loop_oldest_first (k : nat) (s : Settings) (m : Media) (w : world)
    (p q : string) (f g : file) :
  dir w !! p = Some f →
  dir (cleanup_loop is_mp4 disk_free k s m w).2 !! p = None →
  dir (cleanup_loop is_mp4 disk_free k s m w).2 !! q = Some g →
  is_mp4 q = true →
  mtime f ≤ mtime g.
Proof.
  revert w. induction k as [|k IH]; intros w Hp; [simpl; congruence|].
  rewrite cleanup_loop_turn.
  destruct (required s m <? disk_free (dir w)); [simpl; congruence|].
  destruct (negb (truthy (date m))); [cbn [snd]; rewrite dir_noted; congruence|].
  destruct (oldest_mp4 is_mp4 (map_to_list (dir w))) as [[o fo]|] eqn:Hold;
    [|cbn [snd]; rewrite dir_emit, dir_noted; congruence].
  apply oldest_mp4_Some in Hold as (Ho & _ & Hmin). cbn [fst snd].
  destruct (val (date m) <=? mtime fo);
    [cbn [snd]; rewrite dir_say, dir_noted; congruence|].
  destruct (decide (p = o)) as [->|Hne].
  - intros _ Hq%cleanup_loop_keeps_present Hmp4.
    rewrite dir_evicted in Hq. apply lookup_delete_Some in Hq as [_ Hq].
    simplify_eq. by apply (Hmin q g).
  - apply IH. by rewrite dir_evicted, lookup_delete_ne.
Qed.

(** X4.  When [disk_cleanup] returns normally, the free space is strictly
    greater than the size of the reference plus the floor. *)
Theorem disk_cleanup_returns_with_room (s : Settings) (m : Media) (w : world) :
  (disk_cleanup is_mp4 disk_free s m w).1 = Ret tt →
  required s m < disk_free (dir (disk_cleanup is_mp4 disk_free s m w).2).
Proof.
  rewrite disk_cleanup_cases. case_match; [|done].
  pose proof (cleanup_loop_outcome is_mp4 disk_free (S (length (map_to_list (dir w)))) s m w)
    as Hout.
  cbv zeta in Hout. intros Hret. by rewrite Hret in Hout.
Qed.

(** X5.  When [disk_cleanup] exits the program, it does so with status 1,
    for a dated reference, with no media file left in the directory and the
    free space still not above the required amount. *)
Theorem disk_cleanup_exits_when_empty (s : Settings) (m : Media) (w : world) (n : Z) :
  (disk_cleanup is_mp4 disk_free s m w).1 = Exit n →
  n = 1 ∧ truthy (date m) = true ∧
  disk_free (dir (disk_cleanup is_mp4 disk_free s m w).2) ≤ required s m ∧
  ∀ q g, dir (disk_cleanup is_mp4 disk_free s m w).2 !! q = Some g → is_mp4 q = false.
Proof.
  rewrite disk_cleanup_cases. case_match; [|done].
  pose proof (cleanup_loop_outcome is_mp4 disk_free (S (length (map_to_list (dir w)))) s m w)
    as Hout.
  cbv zeta in Hout. intros Hexit. by rewrite Hexit in Hout.
Qed.

(** X6.  When [disk_cleanup] raises [DiskLimitReached], the reference is
    dated, the free space is still not above the required amount, and every
    media file left in the directory is at least as recent as the
    reference. *)
Theorem disk_cleanup_limit_keeps_recent (s : Settings) (m : Media) (w : world) :
  (disk_cleanup is_mp4 disk_free s m w).1 = Raise DiskLimitReached →
  truthy (date m) = true ∧
  disk_free (dir (disk_cleanup is_mp4 disk_free s m w).2) ≤ required s m ∧
  ∀ q g, dir (disk_cleanup is_mp4 disk_free s m w).2 !! q = Some g →
         is_mp4 q = true → val (date m) ≤ mtime g.
Proof.
  rewrite disk_cleanup_cases. case_match; [|done].
  pose proof (cleanup_loop_outcome is_mp4 disk_free (S (length (map_to_list (dir w)))) s m w)
    as Hout.
  cbv zeta in Hout. intros Hraise. rewrite Hraise in Hout.
  destruct Hout as [Hspace [[[=] _]|(_ & Hdate & Hrecent)]]. done.
Qed.

(** X7.  [disk_cleanup] evicts oldest first: a file it removed is no more
    recent than any media file it left in the directory. *)
Theorem disk_cleanup_evicts_oldest_first (s : Settings) (m : Media) (w : world)
    (p q : string) (f g : file) :
  dir w !! p = Some f →
  dir (disk_cleanup is_mp4 disk_free s m w).2 !! p = None →
  dir (disk_cleanup is_mp4 disk_free s m w).2 !! q = Some g →
  is_mp4 q = true →
  mtime f ≤ mtime g.
Proof.
  rewrite disk_cleanup_cases. case_match; [|cbn [snd]; congruence].
  apply cleanup_loop_oldest_first.
Qed.

(** X8.  The exceptions of [disk_cleanup] are [AssertionError],
    [MissingTimestampError] and [DiskLimitReached] and no other; it raises
    [AssertionError] exactly when the floor is zero or the size of the
    reference is unknown or zero, and then before anything is printed or
    deleted. *)
Theorem disk_cleanup_exceptions (s : Settings) (m : Media) (w : world) :
  (∀ e, (disk_cleanup is_mp4 disk_free s m w).1 = Raise e →
        e = AssertionError ∨ e = MissingTimestampError ∨ e = DiskLimitReached) ∧
  ((disk_cleanup is_mp4 disk_free s m w).1 = Raise AssertionError ↔
     truthy (keep_free s) && truthy (size m) = false) ∧
  (truthy (keep_free s) && truthy (size m) = false →
     disk_cleanup is_mp4 disk_free s m w = (Raise AssertionError, w)).
Proof.
  rewrite disk_cleanup_cases.
  pose proof (cleanup_loop_outcome is_mp4 disk_free (S (length (map_to_list (dir w)))) s m w)
    as Hout.
  cbv zeta in Hout.
  destruct (truthy (keep_free s) && truthy (size m)).
  - split_and!; [|split|]; try done.
    + intros e He. rewrite He in Hout. destruct Hout as [_ [[-> _]|[-> _]]]; auto.
    + intros He. rewrite He in Hout. by destruct Hout as [_ [[[=] _]|[[=] _]]].
  - split_and!; [|done..]. intros e [= <-]. by left.
Qed.

End CleanupEnds.

(** ** What [download_media] leaves behind *)

Lemma part_neq (f : string) : part f ≠ f.
Proof.
  assert (f +:+ "" = f) as Hnil.
  { induction f as [|a f IH]; [done|].
    change (String a (f +:+ "") = String a f). by rewrite IH. }
  unfold part. intros Heq.
  rewrite <-Hnil in Heq at 2. by apply String.app_inj in Heq.
Qed.

Section Outcomes.

Variable hexdigest : list byte → string.



Lemma resume_transfer_frame (s : Settings) (media : Media) (tmpfile : string) (f : file)
    (w : world) (p : string) :
  dir w !! tmpfile = Some f → p ≠ tmpfile →
  dir (resume_transfer s media tmpfile w).2 !! p = dir w !! p.
Proof.
  intros Hp Hne. rewrite (resume_transfer_cases _ _ _ _ _ Hp). cbv zeta.
  repeat case_match; cbn [snd]; simpl; rewrite ?lookup_insert_ne by done;
    by rewrite ?dir_say.
Qed.


Lemma regular_download_frame (s : Settings) (media : Media) (tmpfile file_ : string)
    (w : world) (p : string) :
  p ≠ tmpfile → p ≠ file_ →
  dir (regular_download hexdigest s media tmpfile file_ w).2 !! p = dir w !! p.
Proof.
  intros Htmp Hfile. rewrite regular_download_run. cbv zeta.
  repeat case_match; cbn [snd]; rewrite ?dir_say; simpl; rewrite ?dir_say;
    rewrite ?lookup_insert_ne, ?lookup_delete_ne by done;
    rewrite ?lookup_insert_ne, ?lookup_delete_ne by done; by rewrite ?dir_say.
Qed.

Lemma regular_download_clears_staging (s : Settings) (media : Media)
    (tmpfile file_ : string) (w : world) (b : bool) :
  tmpfile ≠ file_ →
  (regular_download hexdigest s media tmpfile file_ w).1 = Ret b →
  dir (regular_download hexdigest s media tmpfile file_ w).2 !! tmpfile = None.
Proof.
  intros Hne. rewrite regular_download_run. cbv zeta.
  repeat case_match; cbn [fst snd]; try done; intros _; rewrite dir_say; simpl;
    rewrite ?lookup_insert_ne by done; apply lookup_delete_eq.
Qed.

Lemma regular_download_fits (s : Settings) (media : Media) (tmpfile file_ : string)
    (w : world) :
  (regular_download hexdigest s media tmpfile file_ w).1 = Ret true →
  ∃ f, dir (regular_download hexdigest s media tmpfile file_ w).2 !! file_ = Some f ∧
       size_mismatch media f = false.
Proof.
  rewrite regular_download_run. cbv zeta.
  repeat case_match; cbn [fst snd]; try done.
  intros _. rewrite dir_say. eexists. split; [apply lookup_insert_eq|]. done.
Qed.


(** [download_media] leaves the files of other items alone. *)
Lemma download_media_frame (s : Settings) (media : Media) (w : world) (p : string) :
  foreign p media →
  dir (download_media hexdigest s media w).2 !! p = dir w !! p.
Proof.
  intros [Hfile Htmp].
  destruct (download_media_cases hexdigest s media w)
    as [[_ ->]|[(f & e & Hp & _ & ->)
               |(f & w1 & f1 & Hp & Hres & _ & [[_ ->]|(_ & _ & ->)])]].
  - by apply regular_download_frame.
  - cbn [snd]. by apply (resume_transfer_frame _ _ _ f).
  - rewrite regular_download_frame, dir_discarded, lookup_delete_ne by done.
    rewrite <-(resume_transfer_frame s media _ f w p Hp Htmp). by rewrite Hres.
  - cbn [snd dir]. rewrite lookup_insert_ne, lookup_delete_ne by done.
    rewrite <-(resume_transfer_frame s media _ f w p Hp Htmp). by rewrite Hres.
Qed.

(** X9.  [download_media] leaves every file other than the final file and
    the staging file of its item as it was, however it ends. *)
Theorem download_media_touches_own_files (s : Settings) (media : Media) (w : world)
    (p : string) :
  p ≠ find_file media → p ≠ part (find_file media) →
  dir (download_media hexdigest s media w).2 !! p = dir w !! p.
Proof. intros Hfile Htmp. by apply download_media_frame. Qed.

(** X10.  When [download_media] returns, with [True] or with [False], no
    staging file is left. *)
Theorem download_media_return_clears_staging (s : Settings) (media : Media) (w : world)
    (b : bool) :
  (download_media hexdigest s media w).1 = Ret b →
  dir (download_media hexdigest s media w).2 !! part (find_file media) = None.
Proof.
  destruct (download_media_cases hexdigest s media w)
    as [[_ ->]|[(f & e & _ & _ & ->)|(f & w1 & f1 & _ & _ & _ & [[_ ->]|(_ & _ & ->)])]].
  - apply regular_download_clears_staging, part_neq.
  - done.
  - apply regular_download_clears_staging, part_neq.
  - intros _. cbn [snd dir].
    rewrite lookup_insert_ne by (intros Heq; by apply (part_neq (find_file media))).
    apply lookup_delete_eq.
Qed.

(** X11.  When [download_media] returns [True], the final file is there and
    its size is not at odds with the expected size; [check_media] then
    accepts the item under any settings that do not ask for checksums. *)
Theorem download_media_success_is_valid (s s' : Settings) (media : Media) (w : world) :
  (download_media hexdigest s media w).1 = Ret true →
  (∃ f, dir (download_media hexdigest s media w).2 !! find_file media = Some f ∧
        size_mismatch media f = false) ∧
  (checksums s' = false →
   (check_media hexdigest s' media (download_media hexdigest s media w).2).1 = Ret true).
Proof.
  intros Hret.
  assert (∃ f, dir (download_media hexdigest s media w).2 !! find_file media = Some f ∧
               size_mismatch media f = false) as (f & Hf & Hsz).
  { revert Hret.
    destruct (download_media_cases hexdigest s media w)
      as [[_ ->]|[(f & e & _ & _ & ->)
                 |(f & w1 & f1 & _ & _ & _ & [[_ ->]|(Hsz & _ & ->)])]].
    - apply regular_download_fits.
    - done.
    - apply regular_download_fits.
    - intros _. exists (stamped media f1). split; [apply lookup_insert_eq|done]. }
  split; [by exists f|]. intros Hsums.
  rewrite check_media_run, Hf, Hsz, Hsums. by destruct (overwrite_bad s').
Qed.


(** A resumption that the network answers, on a staging file [f] smaller
    than expected. *)
Lemma resume_transfer_answered (s : Settings) (media : Media) (tmpfile : string)
    (f : file) (w : world) (data : list byte) (has_length finished : bool) (clock : Z)
    (rest : list response) :
  dir w !! tmpfile = Some f →
  truthy (size media) = true → fsize f < val (size media) →
  net w = Body data has_length finished clock :: rest →
  ((quiet s <? 1) && negb has_length) = false →
  resume_transfer s media tmpfile w =
    (if finished then Ret tt else Raise ConnectionError,
     with_dir <[tmpfile := mkFile (content f ++ data)
                             (if bool_decide (data = []) then mtime f else clock)]>
       (asked (url media) (fsize f)
          (say (quiet s <? 2) (Resuming (filename media) (name media)) w))).
Proof.
  intros Hp Hsize Hsmaller Hnet Hbar.
  rewrite (resume_transfer_cases _ _ _ _ _ Hp), Hsize, Hnet, Hbar. cbv zeta.
  destruct (Z.ltb_spec (fsize f) (val (size media))); [|lia]. cbn [andb].
  by destruct finished.
Qed.

(** [download_media] on a staging file [f] whose resumption completes and
    gives a file of the right size and checksum. *)
Lemma download_media_resume_completes (s : Settings) (media : Media) (w : world)
    (f : file) (data : list byte) (has_length : bool) (clock : Z) (rest : list response) :
  let f' := mkFile (content f ++ data)
                   (if bool_decide (data = []) then mtime f else clock) in
  dir w !! part (find_file media) = Some f →
  truthy (size media) = true → fsize f < val (size media) →
  net w = Body data has_length true clock :: rest →
  ((quiet s <? 1) && negb has_length) = false →
  size_mismatch media f' = false → checksum_mismatch hexdigest media f' = false →
  (download_media hexdigest s media w).1 = Ret true ∧
  dir (download_media hexdigest s media w).2
    = <[find_file media := stamped media f']> (delete (part (find_file media)) (dir w)) ∧
  requests (trace (download_media hexdigest s media w).2)
    = (url media, fsize f) :: requests (trace w).
Proof.
  intros f' Hp Hsize Hsmaller Hnet Hbar Hsz Hsum.
  pose proof (resume_transfer_answered s media _ f w data has_length true clock rest
                Hp Hsize Hsmaller Hnet Hbar) as Hres.
  fold f' in Hres. set (w1 := with_dir _ _) in Hres.
  assert (dir w1 !! part (find_file media) = Some f') as Hf' by apply lookup_insert_eq.
  pose proof (validate_resumed_run hexdigest s media _ (find_file media) f' w1 Hf') as Hval.
  rewrite Hsz, Hsum in Hval.
  rewrite (download_media_staged hexdigest s media w w1 _ true (mk_is_Some _ _ Hp) Hres Hval).
  split_and!; [done| |].
  - subst w1. simpl. by rewrite dir_say, delete_insert_eq.
  - subst w1. simpl. by rewrite requests_say.
Qed.

(** [download_media] without staging file, when the transfer breaks off. *)
Lemma download_media_fresh_interrupted (s : Settings) (media : Media) (w : world)
    (data : list byte) (has_length : bool) (clock : Z) (rest : list response) :
  dir w !! part (find_file media) = None →
  net w = Body data has_length false clock :: rest →
  ((quiet s <? 1) && negb has_length) = false →
  download_media hexdigest s media w =
    (Raise ConnectionError,
     with_dir <[part (find_file media) := mkFile data clock]>
       (asked (url media) 0
          (say (quiet s <? 2) (Downloading (filename media) (name media)) w))).
Proof.
  intros Hp Hnet Hbar.
  by rewrite (download_media_fresh _ _ _ _ Hp), regular_download_run, Hnet, Hbar.
Qed.

(** X13.  A staging file smaller than the expected size is resumed: one
    request, for the bytes from its current size on, and what arrives is
    appended to it.  When the transfer completes and the whole has the
    expected size and checksum, [download_media] returns [True], the final
    file holds the old bytes followed by the new ones, stamped, and the
    staging file is gone. *)
Theorem download_media_resumes_from_size (s : Settings) (media : Media) (w : world)
    (f : file) (data : list byte) (has_length : bool) (clock : Z) (rest : list response) :
  let f' := mkFile (content f ++ data)
                   (if bool_decide (data = []) then mtime f else clock) in
  dir w !! part (find_file media) = Some f →
  truthy (size media) = true → fsize f < val (size media) →
  net w = Body data has_length true clock :: rest →
  ((quiet s <? 1) && negb has_length) = false →
  size_mismatch media f' = false → checksum_mismatch hexdigest media f' = false →
  (download_media hexdigest s media w).1 = Ret true ∧
  dir (download_media hexdigest s media w).2
    = <[find_file media := stamped media f']> (delete (part (find_file media)) (dir w)) ∧
  requests (trace (download_media hexdigest s media w).2)
    = (url media, fsize f) :: requests (trace w).
Proof. apply download_media_resume_completes. Qed.

(** X14.  When a resumed transfer breaks off, [download_media] ends in
    [ConnectionError]; the staging file keeps its old bytes followed by
    those that arrived, and no other file is changed. *)
Theorem download_media_interrupted_resume (s : Settings) (media : Media) (w : world)
    (f : file) (data : list byte) (has_length : bool) (clock : Z) (rest : list response) :
  dir w !! part (find_file media) = Some f →
  truthy (size media) = true → fsize f < val (size media) →
  net w = Body data has_length false clock :: rest →
  ((quiet s <? 1) && negb has_length) = false →
  (download_media hexdigest s media w).1 = Raise ConnectionError ∧
  dir (download_media hexdigest s media w).2
    = <[part (find_file media) :=
          mkFile (content f ++ data)
                 (if bool_decide (data = []) then mtime f else clock)]> (dir w) ∧
  requests (trace (download_media hexdigest s media w).2)
    = (url media, fsize f) :: requests (trace w).
Proof.
  intros Hp Hsize Hsmaller Hnet Hbar.
  pose proof (resume_transfer_answered s media _ f w data has_length false clock rest
                Hp Hsize Hsmaller Hnet Hbar) as Hres.
  rewrite download_media_resume_fails by (by rewrite ?Hp, ?Hres).
  rewrite Hres. cbn [fst snd]. split_and!; [done| |]; simpl.
  - by rewrite dir_say.
  - by rewrite requests_say.
Qed.

(** X15.  A download cut short and taken up again: when a first call of
    [download_media], without staging file, ends in [ConnectionError] after
    the bytes [d1], a second call asks for the bytes from [length d1] on;
    when it receives [d2] and the whole has the expected size and checksum,
    it returns [True] with [d1 ++ d2] in the final file. *)
Theorem download_media_broken_then_resumed (s : Settings) (media : Media) (w : world)
    (d1 d2 : list byte) (hl1 hl2 : bool) (c1 c2 : Z) (rest : list response) :
  let whole := mkFile (d1 ++ d2) c2 in
  let first := download_media hexdigest s media w in
  let second := download_media hexdigest s media first.2 in
  dir w !! part (find_file media) = None →
  net w = Body d1 hl1 false c1 :: Body d2 hl2 true c2 :: rest →
  ((quiet s <? 1) && negb hl1) = false → ((quiet s <? 1) && negb hl2) = false →
  truthy (size media) = true → d2 ≠ [] →
  size_mismatch media whole = false → checksum_mismatch hexdigest media whole = false →
  first.1 = Raise ConnectionError ∧
  second.1 = Ret true ∧
  dir second.2 = <[find_file media := stamped media whole]> (dir w) ∧
  requests (trace second.2)
    = (url media, Z.of_nat (length d1)) :: (url media, 0) :: requests (trace w).
Proof.
  intros whole first second Hp Hnet Hbar1 Hbar2 Hsize Hd2 Hsz Hsum.
  subst second first.
  rewrite (download_media_fresh_interrupted s media w d1 hl1 c1 _ Hp Hnet Hbar1).
  cbn [fst snd]. split; [done|].
  set (w1 := with_dir _ _).
  assert (dir w1 !! part (find_file media) = Some (mkFile d1 c1)) as Hf
    by apply lookup_insert_eq.
  assert (net w1 = Body d2 hl2 true c2 :: rest) as Hnet1.
  { subst w1. simpl. by rewrite net_say, Hnet. }
  assert (fsize (mkFile d1 c1) < val (size media)) as Hsmaller.
  { unfold size_mismatch in Hsz. rewrite Hsize in Hsz. cbn [andb] in Hsz.
    apply negb_false_iff, Z.eqb_eq in Hsz. rewrite <-Hsz. unfold fsize, whole. simpl.
    rewrite length_app. destruct d2; [done|]. simpl. lia. }
  assert (mkFile (content (mkFile d1 c1) ++ d2)
            (if bool_decide (d2 = []) then mtime (mkFile d1 c1) else c2) = whole) as Hwhole.
  { by rewrite bool_decide_false. }
  pose proof (download_media_resume_completes s media w1 (mkFile d1 c1) d2 hl2 c2 rest) as Hrun.
  cbv zeta in Hrun. rewrite Hwhole in Hrun.
  destruct (Hrun Hf Hsize Hsmaller Hnet1 Hbar2 Hsz Hsum) as (-> & -> & ->).
  split_and!; [done| |].
  - subst w1. simpl. rewrite dir_say, delete_insert_eq. by rewrite delete_id.
  - subst w1. simpl. by rewrite requests_say.
Qed.

End Outcomes.

(** ** A whole pass *)

Section Pass.

Variable hexdigest : list byte → string.
Variable is_mp4 : string → bool.
Variable disk_free : gmap string file → Z.


Lemma kept_or_evicted_same (p : string) (w w' : world) :
  dir w' !! p = dir w !! p → kept_or_evicted is_mp4 p w w'.
Proof. by left. Qed.

Lemma kept_or_evicted_trans (p : string) (w1 w2 w3 : world) :
  kept_or_evicted is_mp4 p w1 w2 → kept_or_evicted is_mp4 p w2 w3 →
  kept_or_evicted is_mp4 p w1 w3.
Proof.
  intros [H12|[H12 Hmp4]] [H23|[H23 Hmp4']]; unfold kept_or_evicted.
  - left. congruence.
  - by right.
  - right. split; [congruence|done].
  - by right.
Qed.

(** The clean-up leaves a file as it was or removes a media file. *)
Lemma disk_cleanup_kept_or_evicted (s : Settings) (m : Media) (w : world) (p : string) :
  kept_or_evicted is_mp4 p w (disk_cleanup is_mp4 disk_free s m w).2.
Proof.
  rewrite disk_cleanup_cases.
  destruct (truthy (keep_free s) && truthy (size m)); [|by left].
  set (k := S _). unfold kept_or_evicted.
  destruct (dir w !! p) as [f|] eqn:Hp.
  - destruct (dir (cleanup_loop is_mp4 disk_free k s m w).2 !! p) as [g|] eqn:Hq.
    + left. apply cleanup_loop_keeps_present in Hq. congruence.
    + right. split; [done|].
      by destruct (cleanup_loop_removed_older is_mp4 disk_free k s m w p f Hp Hq).
  - left. by apply cleanup_loop_keeps_absent.
Qed.

(** One turn of the loop without floor. *)
Lemma download_loop_turn_no_floor (s : Settings) (total num : nat) (media : Media)
    (rest : list Media) (w : world) :
  keep_free s ≤ 0 →
  download_loop hexdigest is_mp4 disk_free s total num (media :: rest) w =
    bind (download_media hexdigest s media)
      (λ _, download_loop hexdigest is_mp4 disk_free s total (S num) rest)
      (say (quiet s <? 2) (Counter (S num) total) w).
Proof.
  intros Hfloor. cbn [download_loop].
  destruct (Z.ltb_spec 0 (keep_free s)); [lia|].
  unfold bind at 1, ret at 1.
  by rewrite (bind_Ret _ _ _ _ _ (when_msg_run _ _ _)).
Qed.


Lemma download_loop_frame (s : Settings) (total : nat) (l : list Media) (num : nat)
    (w : world) (p : string) :
  Forall (foreign p) l →
  kept_or_evicted is_mp4 p w (download_loop hexdigest is_mp4 disk_free s total num l w).2 ∧
  (keep_free s ≤ 0 →
   dir (download_loop hexdigest is_mp4 disk_free s total num l w).2 !! p = dir w !! p).
Proof.
  revert num w. induction l as [|media rest IH]; intros num w Hown.
  { split; [by left|done]. }
  apply Forall_cons in Hown as [Hmedia Hrest].
  assert (∀ w0, dir w0 !! p = dir w !! p →
            let r := bind (download_media hexdigest s media)
                       (λ _, download_loop hexdigest is_mp4 disk_free s total (S num) rest)
                       w0 in
            kept_or_evicted is_mp4 p w r.2 ∧ (keep_free s ≤ 0 → dir r.2 !! p = dir w !! p))
    as Hitem.
  { intros w0 Hw0. cbv zeta. unfold bind.
    pose proof (download_media_frame hexdigest s media w0 p Hmedia) as Hframe.
    destruct (download_media hexdigest s media w0) as [[b|e|n|] w1]; cbn [fst snd] in *;
      [|split; [left|intros _]; congruence..].
    destruct (IH (S num) w1 Hrest) as [Hkept Hsame]. split.
    - apply kept_or_evicted_trans with w1; [left; congruence|done].
    - intros Hfloor. rewrite Hsame by done. congruence. }
  destruct (Z.ltb_spec 0 (keep_free s)) as [Hfloor|Hfloor].
  - split; [|lia]. rewrite download_loop_turn by done. cbv zeta.
    pose proof (disk_cleanup_kept_or_evicted s media w p) as Hclean.
    destruct (disk_cleanup is_mp4 disk_free s media w) as [[[]|e|n|] w1]; cbn [fst snd] in *;
      [|destruct e; try done|done..].
    + rewrite (bind_Ret _ _ _ _ _ (when_msg_run _ _ _)).
      unfold bind at 1.
      pose proof (download_media_frame hexdigest s media
                    (say (quiet s <? 2) (Counter (S num) total) w1) p Hmedia) as Hframe.
      rewrite dir_say in Hframe.
      destruct (download_media hexdigest s media _) as [[b|e|n|] w2]; cbn [fst snd] in *;
        [|apply kept_or_evicted_trans with w1; [done|by left]..].
      apply kept_or_evicted_trans with w1; [done|].
      apply kept_or_evicted_trans with w2; [by left|]. by apply IH.
    + apply kept_or_evicted_trans with w1; [done|].
      apply kept_or_evicted_trans with (say (quiet s <? 2) (LowDiskSkipping (name media)) w1);
        [left; by rewrite dir_say|]. by apply IH.
  - rewrite download_loop_turn_no_floor by done. apply Hitem. by rewrite dir_say.
Qed.

(** The check of one item: its verdict, and nothing but messages. *)
Lemma check_media_scan (s : Settings) (media : Media) (w : world) :
  ∃ w', check_media hexdigest s media w
          = (Ret (isAlreadyValid hexdigest s media (dir w)), w') ∧
        dir w' = dir w ∧ net w' = net w ∧ requests (trace w') = requests (trace w).
Proof.
  rewrite check_media_run. unfold isAlreadyValid.
  destruct (dir w !! find_file media) as [f|]; [|by eexists].
  destruct (overwrite_bad s); [|by eexists].
  destruct (size_mismatch media f);
    [eexists; split; [done|]; by rewrite dir_say, net_say, requests_say|].
  destruct (checksums s && checksum_mismatch hexdigest media f);
    [eexists; split; [done|]; by rewrite dir_say, net_say, requests_say|by eexists].
Qed.

(** The scan keeps the items that are not valid in the directory as it
    is when the scan starts. *)
Lemma filter_prog_scan (s : Settings) (l : list Media) (w : world) :
  ∃ w', filter_prog (λ media, bind (check_media hexdigest s media) (λ ok, ret (negb ok))) l w
          = (Ret (List.filter (λ media, negb (isAlreadyValid hexdigest s media (dir w))) l), w') ∧
        dir w' = dir w ∧ net w' = net w ∧ requests (trace w') = requests (trace w).
Proof.
  revert w. induction l as [|media rest IH]; intros w; [by eexists|].
  cbn [filter_prog List.filter].
  destruct (check_media_scan s media w) as (w1 & Hcheck & Hdir1 & Hnet1 & Hreq1).
  destruct (IH w1) as (w2 & Hrest & Hdir2 & Hnet2 & Hreq2).
  exists w2. split; [|split_and!; congruence].
  unfold bind at 1, bind at 1. rewrite Hcheck. unfold ret at 1.
  unfold bind at 1. rewrite Hrest, Hdir1. unfold ret.
  by destruct (isAlreadyValid hexdigest s media (dir w)).
Qed.

(** [download_all] is the loop over the items found not valid. *)
Lemma download_all_scan (s : Settings) (l : list Media) (w : world) :
  let download_list :=
    List.filter (λ media, negb (isAlreadyValid hexdigest s media (dir w))) l in
  ∃ w', download_all hexdigest is_mp4 disk_free s l w
          = download_loop hexdigest is_mp4 disk_free s (length download_list) 0
              download_list w' ∧
        dir w' = dir w ∧ net w' = net w ∧ requests (trace w') = requests (trace w).
Proof.
  cbv zeta. rewrite download_all_run.
  destruct (filter_prog_scan s l (say (quiet s <? 1) ScanningLocalFiles w))
    as (w' & Hscan & Hdir & Hnet & Hreq).
  rewrite dir_say in Hscan, Hdir. rewrite net_say in Hnet. rewrite requests_say in Hreq.
  exists w'. split; [|done]. unfold bind at 1. by rewrite Hscan.
Qed.

(** X16.  [download_all] checks every item before the first download: it
    is the loop over those items of the list that are not valid in the
    directory as it is at the start, in the order of the list, counted
    against their number; the scan changes no file and asks nothing of the
    network. *)
Theorem download_all_is_loop_over_invalid (s : Settings) (l : list Media) (w : world) :
  let download_list :=
    List.filter (λ media, negb (isAlreadyValid hexdigest s media (dir w))) l in
  ∃ w', download_all hexdigest is_mp4 disk_free s l w
          = download_loop hexdigest is_mp4 disk_free s (length download_list) 0
              download_list w' ∧
        dir w' = dir w ∧ net w' = net w ∧ requests (trace w') = requests (trace w).
Proof. apply download_all_scan. Qed.

(** X17.  When every item of the list is valid, [download_all] returns
    without changing a file and without a request. *)
Theorem download_all_up_to_date (s : Settings) (l : list Media) (w : world) :
  Forall (λ media, isAlreadyValid hexdigest s media (dir w) = true) l →
  (download_all hexdigest is_mp4 disk_free s l w).1 = Ret tt ∧
  dir (download_all hexdigest is_mp4 disk_free s l w).2 = dir w ∧
  net (download_all hexdigest is_mp4 disk_free s l w).2 = net w ∧
  requests (trace (download_all hexdigest is_mp4 disk_free s l w).2) = requests (trace w).
Proof.
  intros Hvalid.
  destruct (download_all_scan s l w) as (w' & -> & Hdir & Hnet & Hreq).
  assert (List.filter (λ media, negb (isAlreadyValid hexdigest s media (dir w))) l = [])
    as ->; [|done].
  induction Hvalid as [|media rest Hmedia _ IH]; [done|].
  cbn [List.filter]. by rewrite Hmedia.
Qed.


(** X19.  With a floor configured, an item whose size is unknown, or zero,
    stops the pass: the assertion of [disk_cleanup] fails, nothing catches
    the [AssertionError], and neither this item nor any later one is
    downloaded. *)
Theorem download_loop_unknown_size_aborts (s : Settings) (total num : nat) (media : Media)
    (rest : list Media) (w : world) :
  0 < keep_free s → truthy (size media) = false →
  download_loop hexdigest is_mp4 disk_free s total num (media :: rest) w
    = (Raise AssertionError, w).
Proof.
  intros Hfloor Hsize. rewrite download_loop_turn by done. cbv zeta.
  rewrite disk_cleanup_cases, Hsize. by rewrite andb_false_r.
Qed.

(** X20.  A file that is neither the final file nor the staging file of an
    item of the list is never created or changed by [download_all]: it is
    left as it was, or it was a media file and has been removed; and
    without a floor it is left as it was. *)
Theorem download_all_foreign_files (s : Settings) (l : list Media) (w : world)
    (p : string) :
  Forall (foreign p) l →
  kept_or_evicted is_mp4 p w (download_all hexdigest is_mp4 disk_free s l w).2 ∧
  (keep_free s ≤ 0 →
   dir (download_all hexdigest is_mp4 disk_free s l w).2 !! p = dir w !! p).
Proof.
  intros Hforeign.
  destruct (download_all_scan s l w) as (w' & -> & Hdir & _).
  set (dl := List.filter _ l).
  assert (Forall (foreign p) dl) as Hdl.
  { apply Forall_forall. intros media Hin.
    apply list_elem_of_In, filter_In in Hin as [Hin _]. apply list_elem_of_In in Hin.
    by apply (proj1 (Forall_forall _ _) Hforeign). }
  destruct (download_loop_frame s (length dl) dl 0 w' p Hdl) as [Hkept Hsame].
  split.
  - apply kept_or_evicted_trans with w'; [left; by rewrite Hdir|done].
  - intros Hfloor. rewrite Hsame by done. by rewrite Hdir.
Qed.

End Pass.

(** ** The loops over blocks *)

Section Blocks.

Local Open Scope list_scope.

Lemma read_block_empty (n : nat) (rest : list byte) :
  n ≠ 0%nat → (read_block n rest).1 = [] → rest = [].
Proof. unfold read_block. cbn [fst]. destruct n, rest; done. Qed.

Lemma read_block_shorter (n : nat) (rest : list byte) :
  n ≠ 0%nat → rest ≠ [] → (length (read_block n rest).2 < length rest)%nat.
Proof.
  unfold read_block. cbn [snd]. intros Hn Hrest. rewrite length_drop.
  destruct rest; [done|]. simpl. lia.
Qed.

Lemma read_block_whole (n : nat) (rest : list byte) :
  (read_block n rest).1 ++ (read_block n rest).2 = rest.
Proof. apply take_drop. Qed.

(** With blocks that are not empty, the loop feeds the digest all that is
    left, in order, and ends before the fuel does. *)
Lemma md5_loop_run (fuel block : nat) (fed rest : list byte) :
  block ≠ 0%nat → (length rest < fuel)%nat →
  md5_loop fuel block fed rest = Some (fed ++ rest).
Proof.
  intros Hblock. revert fed rest. induction fuel as [|fuel IH]; intros fed rest Hfuel; [lia|].
  cbn [md5_loop].
  pose proof (read_block_empty block rest Hblock) as Hempty.
  pose proof (read_block_shorter block rest Hblock) as Hshorter.
  pose proof (read_block_whole block rest) as Hwhole.
  destruct (read_block block rest) as [chunk rest']. cbn [fst snd] in *.
  case_bool_decide as Hchunk.
  - by rewrite (Hempty Hchunk), app_nil_r.
  - rewrite IH.
    + by rewrite <-app_assoc, Hwhole.
    + assert (rest ≠ []) as Hrest by (intros ->; by destruct chunk).
      specialize (Hshorter Hrest). lia.
Qed.

(** X21.  Reading the file in blocks of 4096 bytes, [_md5] digests the
    whole content of the file, once and in order, whatever its length; its
    loop always ends; a missing file gives [FileNotFoundError]. *)
Theorem _md5_by_blocks_is_whole (hexdigest : list byte → string) (p : string) (w : world) :
  _md5_by_blocks hexdigest p w = _md5 hexdigest p w ∧
  (_md5_by_blocks hexdigest p w).1 ≠ OutOfFuel ∧
  (dir w !! p = None → _md5_by_blocks hexdigest p w = (Raise FileNotFoundError, w)).
Proof.
  assert (_md5_by_blocks hexdigest p w = _md5 hexdigest p w) as Heq.
  { unfold _md5_by_blocks, _md5, bind, stat.
    destruct (dir w !! p) as [f|]; [|done].
    by rewrite md5_loop_run by (done || lia). }
  split_and!; [done| |]; rewrite Heq; unfold _md5, bind, stat.
  - by destruct (dir w !! p).
  - by intros ->.
Qed.

(** With a positive size, or -1, a read gives a chunk and what is left
    after it, and an empty chunk only at the end of the body. *)
Lemma response_read_reads (amt : Z) (rest : list byte) :
  0 < amt ∨ amt = -1 →
  ∃ chunk rest',
    response_read amt rest = Ret (chunk, rest') ∧
    chunk ++ rest' = rest ∧ (chunk = [] → rest = []).
Proof.
  intros Hamt. unfold response_read.
  destruct (Z.ltb_spec amt (-1)); [lia|].
  destruct (Z.eqb_spec amt (-1)).
  - exists rest, []. by rewrite app_nil_r.
  - exists (read_block (Z.to_nat amt) rest).1, (read_block (Z.to_nat amt) rest).2.
    split_and!; [by destruct (read_block _ _)|apply read_block_whole|].
    apply read_block_empty. lia.
Qed.

Lemma length_padded (b : list ascii) : (length b ≤ 70)%nat → length (padded b) = 70%nat.
Proof. intros Hb. unfold padded. rewrite length_app, length_replicate. lia. Qed.

(** "Never more than 70 hash signs": the bar as printed is 70 characters
    wide. *)
Lemma length_padded_bar (done_bytes total_bytes : Z) :
  length (padded (bar done_bytes total_bytes)) = 70%nat.
Proof. apply length_padded. unfold bar. rewrite length_replicate. lia. Qed.

Lemma bar_full (total_bytes : Z) :
  total_bytes ≠ 0 → padded (bar total_bytes total_bytes) = replicate 70 "#"%char.
Proof.
  intros Htotal. unfold padded, bar.
  rewrite Z.div_mul by done. rewrite length_replicate.
  change (Z.to_nat (70 `min` 70)) with 70%nat.
  rewrite Nat.sub_diag. apply app_nil_r.
Qed.

(** The loop of [download_file] with a chunk size that is positive, or
    -1. *)
Lemma transfer_loop_run (fuel : nat) (progress : bool) (chunk_size total_bytes : Z)
    (rest written : list byte) (done_bytes : Z) (bars : list (list ascii)) :
  0 < chunk_size ∨ chunk_size = -1 → (length rest < fuel)%nat →
  ∃ shown,
    transfer_loop fuel progress chunk_size total_bytes rest written done_bytes bars
      = (Ret tt,
         (written ++ rest, done_bytes + Z.of_nat (length rest), shown ++ bars)) ∧
    Forall (λ b, length b = 70%nat) shown ∧
    head shown = (if progress
                  then Some (padded (bar (done_bytes + Z.of_nat (length rest)) total_bytes))
                  else None).
Proof.
  intros Hsize. revert rest written done_bytes bars.
  induction fuel as [|fuel IH]; intros rest written done_bytes bars Hfuel; [lia|].
  cbn [transfer_loop].
  destruct (response_read_reads chunk_size rest Hsize)
    as (chunk & rest' & -> & Hwhole & Hempty).
  case_bool_decide as Hchunk.
  - rewrite (Hempty Hchunk), Hchunk, app_nil_r. cbn [length]. rewrite Z.add_0_r.
    destruct progress.
    + exists [padded (bar done_bytes total_bytes)]. split_and!; [done| |done].
      apply Forall_singleton, length_padded_bar.
    + exists []. by split_and!.
  - assert (length rest' < length rest)%nat as Hshorter.
    { rewrite <-Hwhole, length_app. destruct chunk; [done|]. simpl. lia. }
    destruct (IH rest' (written ++ chunk) (done_bytes + Z.of_nat (length chunk))
                (if progress then padded (bar done_bytes total_bytes) :: bars else bars)
                ltac:(lia)) as (shown & -> & Hwidth & Hhead).
    assert (done_bytes + Z.of_nat (length chunk) + Z.of_nat (length rest')
            = done_bytes + Z.of_nat (length rest)) as Hdone.
    { rewrite <-Hwhole, length_app. lia. }
    rewrite Hdone in *. rewrite <-app_assoc, Hwhole.
    destruct progress.
    + exists (shown ++ [padded (bar done_bytes total_bytes)]). split_and!.
      * by rewrite <-app_assoc.
      * apply Forall_app. split; [done|]. apply Forall_singleton, length_padded_bar.
      * destruct shown; [done|]. done.
    + exists shown. by split_and!.
Qed.

(** X22.  With a chunk size that is positive, or -1 (which reads
    everything at once), the loop of [download_file] ends normally and
    appends the whole body to what the file holds, and [done_bytes] has
    grown by the length of the body.  When the progress bar is shown, which
    it is only for a total other than zero, every bar printed is exactly 70
    characters wide; and when the body has the length that was announced,
    the last bar is 70 hash signs. *)
Theorem transfer_loop_writes_body (progress isatty : bool) (chunk_size total_bytes : Z)
    (body written : list byte) (done_bytes : Z) :
  0 < chunk_size ∨ chunk_size = -1 →
  ∃ shown,
    transfer_loop (S (length body)) (shows_progress progress isatty total_bytes)
      chunk_size total_bytes body written done_bytes []
      = (Ret tt, (written ++ body, done_bytes + Z.of_nat (length body), shown)) ∧
    Forall (λ b, length b = 70%nat) shown ∧
    (shows_progress progress isatty total_bytes = true →
     total_bytes = done_bytes + Z.of_nat (length body) →
     head shown = Some (replicate 70 "#"%char)).
Proof.
  intros Hsize.
  destruct (transfer_loop_run (S (length body)) (shows_progress progress isatty total_bytes)
              chunk_size total_bytes body written done_bytes [] Hsize ltac:(lia))
    as (shown & Hrun & Hwidth & Hhead).
  exists shown. rewrite app_nil_r in Hrun. split_and!; [done..|].
  intros Hshown Hlength. rewrite Hhead, Hshown, <-Hlength, bar_full; [done|].
  unfold shows_progress in Hshown.
  destruct progress, (Z.eqb_spec total_bytes 0); done.
Qed.

(** X23.  With a chunk size of zero, which is what a rate limit below one
    byte a second is rounded to, the first read gives nothing and the loop
    ends at once: nothing of the body is written. *)
Theorem transfer_loop_zero_chunk (fuel : nat) (progress : bool) (total_bytes : Z)
    (body written : list byte) (done_bytes : Z) :
  ∃ shown,
    transfer_loop (S fuel) progress 0 total_bytes body written done_bytes []
      = (Ret tt, (written, done_bytes, shown)).
Proof.
  eexists. cbn [transfer_loop]. unfold response_read, read_block.
  change (0 <? -1) with false. change (0 =? -1) with false.
  change (Z.to_nat 0) with 0%nat.
  rewrite take_0, drop_0. rewrite bool_decide_true by done.
  cbn [length]. by rewrite Z.add_0_r.
Qed.

(** X25.  With a chunk size below -1, as line 223 gives for a negative
    rate limit, the first read fails: the loop ends in [ValueError] with
    nothing of the body written. *)
Theorem transfer_loop_negative_chunk (fuel : nat) (progress : bool)
    (chunk_size total_bytes : Z) (body written : list byte) (done_bytes : Z) :
  chunk_size < -1 →
  ∃ shown,
    transfer_loop (S fuel) progress chunk_size total_bytes body written done_bytes []
      = (Raise ValueError, (written, done_bytes, shown)).
Proof.
  intros Hsize. eexists. cbn [transfer_loop]. unfold response_read.
  by destruct (Z.ltb_spec chunk_size (-1)); [|lia].
Qed.

End Blocks.

(** ** The request comes first *)

(** Asked to resume a file that is not there, [download_file] starts it
    afresh. *)
Lemma download_file_resume_missing (u p : string) (progress : bool) (w : world) :
  dir w !! p = None →
  download_file u p true progress w = download_file u p false progress w.
Proof.
  intros Hp. unfold download_file, bind at 1, exists_. rewrite Hp.
  rewrite bool_decide_false by (by intros [? ?]).
  symmetry. unfold bind at 1, exists_. rewrite Hp.
  by rewrite bool_decide_false by (by intros [? ?]).
Qed.

(** X24.  [download_file] sends exactly one request, before it opens the
    file: for the bytes from the size of the file on when it is told to
    resume and the file exists, from byte 0 otherwise.  When the connection
    fails, or the progress bar is asked for and the response announces no
    length, no file is created, truncated or changed. *)
Theorem download_file_asks_before_writing (u p : string) (resume progress : bool)
    (w : world) :
  let offset := if resume then default 0 (fsize <$> dir w !! p) else 0 in
  requests (trace (download_file u p resume progress w).2)
    = (u, offset) :: requests (trace w) ∧
  ((download_file u p resume progress w).1 = Raise URLError ∨
   (download_file u p resume progress w).1 = Raise TypeError →
   dir (download_file u p resume progress w).2 = dir w).
Proof.
  cbv zeta.
  assert (∀ o, requests (trace (asked u o w)) = (u, o) :: requests (trace w)) as Hasked
    by done.
  destruct resume, (dir w !! p) as [f|] eqn:Hp; cbn [fmap option_fmap option_map default].
  - rewrite (download_file_resume _ _ _ f) by done.
    destruct (net w) as [|[|data hl fin clock] rest]; [by split..|].
    destruct (progress && negb hl); [by split|].
    destruct fin; (split; [done|]); by intros [|].
  - rewrite download_file_resume_missing, download_file_fresh by done.
    destruct (net w) as [|[|data hl fin clock] rest]; [by split..|].
    destruct (progress && negb hl); [by split|].
    destruct fin; (split; [done|]); by intros [|].
  - rewrite download_file_fresh.
    destruct (net w) as [|[|data hl fin clock] rest]; [by split..|].
    destruct (progress && negb hl); [by split|].
    destruct fin; (split; [done|]); by intros [|].
  - rewrite download_file_fresh.
    destruct (net w) as [|[|data hl fin clock] rest]; [by split..|].
    destruct (progress && negb hl); [by split|].
    destruct fin; (split; [done|]); by intros [|].
Qed.

(** * The scenarios worked out *)

(** ** The clean-up on two videos *)

Lemma two_videos_oldest :
  ∀ q g, dir two_videos !! q = Some g → ends_in_mp4 q = true → 5 ≤ mtime g.
Proof.
  change (map_Forall (λ q g, ends_in_mp4 q = true → 5 ≤ mtime g) (dir two_videos)).
  refine (bool_decide_unpack _ _). vm_compute. exact I.
Qed.

(** With four bytes free and five required, a reference published at 8
    evicts [b.mp4] (modified at 5); a reference published at 5 evicts
    nothing and meets [DiskLimitReached]. *)
Lemma disk_cleanup_evicts_only_older_witness :
  (dir two_videos !! "b.mp4" = Some (mkFile [x01] 5) ∧
   dir (disk_cleanup ends_in_mp4 (left_of 7) floor3 (video (Some 8)) two_videos).2
     !! "b.mp4" = None ∧
   5 < 8) ∧
  (left_of 7 (dir two_videos) ≤ required floor3 (video (Some 5)) ∧
   (disk_cleanup ends_in_mp4 (left_of 7) floor3 (video (Some 5)) two_videos).1
     = Raise DiskLimitReached ∧
   dir (disk_cleanup ends_in_mp4 (left_of 7) floor3 (video (Some 5)) two_videos).2
     = dir two_videos).
Proof.
  split.
  - split; [vm_compute; reflexivity|]. split; [vm_compute; reflexivity|].
    apply (proj1 (disk_cleanup_evicts_only_older ends_in_mp4 (left_of 7) floor3
                    (video (Some 8)) two_videos) "b.mp4" (mkFile [x01] 5));
      vm_compute; reflexivity.
  - split; [vm_compute; discriminate|].
    apply (proj2 (disk_cleanup_evicts_only_older ends_in_mp4 (left_of 7) floor3
                    (video (Some 5)) two_videos) "b.mp4" (mkFile [x01] 5));
      try (vm_compute; reflexivity).
    + vm_compute; discriminate.
    + exact two_videos_oldest.
    + simpl. lia.
Defined.

(** C4, counterexample.  Five bytes are free and five are required: the
    call does not return at once.  With a reference published at 8 it
    deletes [b.mp4]; with an undated one it raises. *)
Lemma disk_cleanup_at_equality_goes_on :
  left_of 8 (dir two_videos) = required floor3 (video (Some 8)) ∧
  dir two_videos !! "b.mp4" = Some (mkFile [x01] 5) ∧
  dir (disk_cleanup ends_in_mp4 (left_of 8) floor3 (video (Some 8)) two_videos).2
    !! "b.mp4" = None ∧
  (disk_cleanup ends_in_mp4 (left_of 8) floor3 (video None) two_videos).1
    = Raise MissingTimestampError.
Proof. split_and!; vm_compute; reflexivity. Qed.

(** With nine bytes of capacity the call returns at once; with eight, five
    bytes are free and five required: [b.mp4] goes, and then there is
    room. *)
Lemma disk_cleanup_returns_iff_strictly_more_witness :
  disk_cleanup ends_in_mp4 (left_of 9) floor3 (video (Some 8)) two_videos
    = (Ret tt, two_videos) ∧
  ¬ ((disk_cleanup ends_in_mp4 (left_of 8) floor3 (video (Some 8)) two_videos).1 = Ret tt ∧
     dir (disk_cleanup ends_in_mp4 (left_of 8) floor3 (video (Some 8)) two_videos).2
       = dir two_videos) ∧
  evicts_down_to ends_in_mp4 (left_of 8) floor3 (video (Some 8)) (dir two_videos)
    (dir (disk_cleanup ends_in_mp4 (left_of 8) floor3 (video (Some 8)) two_videos).2) ∧
  ((disk_cleanup ends_in_mp4 (left_of 8) floor3 (video (Some 8)) two_videos).1 = Ret tt ↔
     required floor3 (video (Some 8))
       < left_of 8 (dir (disk_cleanup ends_in_mp4 (left_of 8) floor3 (video (Some 8))
                           two_videos).2)).
Proof.
  destruct (disk_cleanup_returns_iff_strictly_more ends_in_mp4 (left_of 9) floor3
              (video (Some 8)) two_videos eq_refl eq_refl) as (Hroom & _).
  destruct (disk_cleanup_returns_iff_strictly_more ends_in_mp4 (left_of 8) floor3
              (video (Some 8)) two_videos eq_refl eq_refl) as (_ & Hnone & Hturns & Hret).
  split_and!; [|apply Hnone|exact Hturns|exact Hret].
  - apply Hroom. vm_compute. reflexivity.
  - vm_compute. discriminate.
Defined.

(** C5, counterexample.  An undated reference and ample free space:
    [disk_cleanup] returns normally, no [MissingTimestampError]. *)
Lemma disk_cleanup_undated_with_space :
  date (video None) = None ∧
  disk_cleanup ends_in_mp4 (left_of 100) floor3 (video None) two_videos
    = (Ret tt, two_videos).
Proof. split; vm_compute; reflexivity. Qed.

Lemma disk_cleanup_without_date_witness :
  dir (disk_cleanup ends_in_mp4 (left_of 7) floor3 (video None) two_videos).2
    = dir two_videos ∧
  (disk_cleanup ends_in_mp4 (left_of 7) floor3 (video None) two_videos).1
    = Raise MissingTimestampError ∧
  disk_cleanup ends_in_mp4 (left_of 100) floor3 (video None) two_videos
    = (Ret tt, two_videos).
Proof.
  pose proof (disk_cleanup_without_date ends_in_mp4 (left_of 7) floor3 (video None)
                two_videos eq_refl eq_refl eq_refl) as (Hdir & Hraise & _).
  pose proof (disk_cleanup_without_date ends_in_mp4 (left_of 100) floor3 (video None)
                two_videos eq_refl eq_refl eq_refl) as (_ & _ & Hret).
  split_and!; [done| |].
  - apply Hraise. vm_compute; discriminate.
  - apply Hret. vm_compute; reflexivity.
Defined.

(** ** Downloads of [c.mp4] *)

(** C2, counterexample.  A staging file of one byte, two expected: the
    resumption from byte 1 brings the size to two but the checksum is
    wrong.  The staging file is deleted, and then the whole file is asked
    for again, from byte 0, promoted, and the call reports success. *)
Lemma resumed_mismatch_is_downloaded_again :
  let w := staged [x61] [answer [x7a] 60; answer [x61; x62] 70] in
  let r := download_media plain_digest floor3 (video (Some 20)) w in
  dir w !! "c.mp4.part" = Some (mkFile [x61] 50) ∧
  r.1 = Ret true ∧
  dir r.2 !! "c.mp4" = Some (mkFile [x61; x62] 20) ∧
  requests (trace r.2) = [("http://host/c.mp4", 0); ("http://host/c.mp4", 1)].
Proof. cbv zeta. split_and!; vm_compute; reflexivity. Qed.

Lemma resumed_mismatch_starts_over_witness :
  let w := staged [x61] [answer [x7a] 60; answer [x61; x62] 70] in
  let w1 := (resume_transfer floor3 (video (Some 20)) "c.mp4.part" w).2 in
  let w2 := discarded floor3 (video (Some 20)) "c.mp4.part" (mkFile [x61; x7a] 60) w1 in
  download_media plain_digest floor3 (video (Some 20)) w
    = regular_download plain_digest floor3 (video (Some 20)) "c.mp4.part" "c.mp4" w2 ∧
  dir w2 = delete "c.mp4.part" (dir w1) ∧
  requests (trace (download_media plain_digest floor3 (video (Some 20)) w).2)
    = ("http://host/c.mp4", 0) :: requests (trace w1).
Proof.
  cbv zeta.
  apply (resumed_mismatch_starts_over plain_digest floor3 (video (Some 20))
           (staged [x61] [answer [x7a] 60; answer [x61; x62] 70])).
  - exists (mkFile [x61] 50). vm_compute. reflexivity.
  - vm_compute. reflexivity.
  - vm_compute. reflexivity.
  - vm_compute. reflexivity.
Defined.

(** C3, at the failing input.  Nothing staged, two bytes expected, one byte
    received: the file is promoted and kept, and [download_media] returns
    [False]; with the right size and a wrong checksum it returns [True]. *)
Lemma fresh_size_mismatch_returns_false :
  let r := download_media plain_digest (mkSettings 0 0 false true) (video (Some 20))
             (nothing_yet [answer [x61] 70]) in
  let r' := download_media plain_digest (mkSettings 0 0 false true) (video (Some 20))
              (nothing_yet [answer [x7a; x7a] 70]) in
  (r.1 = Ret false ∧
   dir r.2 !! "c.mp4" = Some (mkFile [x61] 20) ∧
   dir r.2 !! "c.mp4.part" = None ∧
   trace r.2 = [Msg (SizeMismatch "c.mp4"); Request "http://host/c.mp4" 0;
                Msg (Downloading "c.mp4" "C")]) ∧
  (r'.1 = Ret true ∧
   dir r'.2 !! "c.mp4" = Some (mkFile [x7a; x7a] 20) ∧
   trace r'.2 = [Msg (ChecksumMismatch "c.mp4"); Request "http://host/c.mp4" 0;
                 Msg (Downloading "c.mp4" "C")]).
Proof. cbv zeta. split_and!; vm_compute; reflexivity. Qed.

(** C8, counterexample.  An undated descriptor, downloaded with success:
    the final file keeps the time of its download, 70. *)
Lemma undated_success_keeps_download_time :
  let r := download_media plain_digest floor3 (video None)
             (nothing_yet [answer [x61; x62] 70]) in
  date (video None) = None ∧
  r.1 = Ret true ∧
  dir r.2 !! "c.mp4" = Some (mkFile [x61; x62] 70).
Proof. cbv zeta. split_and!; vm_compute; reflexivity. Qed.

(** Published at 20, the file carries 20; undated, it keeps the time of
    its download. *)
Lemma success_carries_publish_date_witness :
  (∃ f, dir (download_media plain_digest floor3 (video (Some 20))
               (nothing_yet [answer [x61; x62] 70])).2 !! find_file (video (Some 20))
          = Some f ∧
        mtime f = val (date (video (Some 20)))) ∧
  (∃ f, dir (download_media plain_digest floor3 (video None)
               (nothing_yet [answer [x61; x62] 70])).2 !! find_file (video None)
          = Some f ∧
        ((∃ f0, dir (nothing_yet [answer [x61; x62] 70]) !! part (find_file (video None))
                  = Some f0 ∧ mtime f = mtime f0) ∨
         (∃ data has_length finished clock,
            Body data has_length finished clock ∈ net (nothing_yet [answer [x61; x62] 70]) ∧
            mtime f = clock))).
Proof.
  split.
  - apply (proj1 (success_carries_publish_date plain_digest floor3 (video (Some 20))
                    (nothing_yet [answer [x61; x62] 70]))); vm_compute; reflexivity.
  - apply (proj2 (success_carries_publish_date plain_digest floor3 (video None)
                    (nothing_yet [answer [x61; x62] 70]))); vm_compute; reflexivity.
Defined.


(** C10, counterexample.  A staging file, no expected size, and an
    expected checksum that the staging file does not have: the file is
    asked for from the network. *)
Lemma staged_without_size_may_transfer :
  let w := staged [x7a] [answer [x61; x62] 70] in
  let r := download_media plain_digest floor3 (clip None (Some "ab") (Some 20)) w in
  size (clip None (Some "ab") (Some 20)) = None ∧
  dir w !! "c.mp4.part" = Some (mkFile [x7a] 50) ∧
  requests (trace w) = [] ∧
  requests (trace r.2) = [("http://host/c.mp4", 0)] ∧
  dir r.2 !! "c.mp4" = Some (mkFile [x61; x62] 20).
Proof. cbv zeta. split_and!; vm_compute; reflexivity. Qed.

Lemma staged_without_expected_size_witness :
  let w := staged [x7a] [answer [x61; x62] 70] in
  download_media plain_digest floor3 (clip None None (Some 20)) w
    = (Ret true,
       mkWorld (<["c.mp4" := stamped (clip None None (Some 20)) (mkFile [x7a] 50)]>
                  (delete "c.mp4.part" (dir w))) (net w) (trace w)) ∧
  download_media plain_digest floor3 (clip None (Some "ab") (Some 20)) w
    = regular_download plain_digest floor3 (clip None (Some "ab") (Some 20))
        "c.mp4.part" "c.mp4"
        (discarded floor3 (clip None (Some "ab") (Some 20)) "c.mp4.part"
           (mkFile [x7a] 50) w) ∧
  requests (trace (download_media plain_digest floor3 (clip None (Some "ab") (Some 20)) w).2)
    = ("http://host/c.mp4", 0) :: requests (trace w).
Proof.
  cbv zeta.
  destruct (staged_without_expected_size plain_digest floor3 (clip None None (Some 20))
              (staged [x7a] [answer [x61; x62] 70]) (mkFile [x7a] 50)
              ltac:(vm_compute; reflexivity) eq_refl) as (_ & Hpromoted & _).
  destruct (staged_without_expected_size plain_digest floor3
              (clip None (Some "ab") (Some 20))
              (staged [x7a] [answer [x61; x62] 70]) (mkFile [x7a] 50)
              ltac:(vm_compute; reflexivity) eq_refl) as (_ & _ & Hagain).
  split; [apply Hpromoted; reflexivity|].
  apply Hagain. vm_compute. reflexivity.
Defined.

Lemma fresh_download_succeeds_witness :
  let r := download_media plain_digest floor3 (video (Some 20))
             (nothing_yet [answer [x61; x62] 70]) in
  r.1 = Ret true ∧
  dir r.2 = <["c.mp4" := stamped (video (Some 20)) (mkFile [x61; x62] 70)]>
              (delete "c.mp4.part" ∅) ∧
  requests (trace r.2) = [("http://host/c.mp4", 0)].
Proof.
  cbv zeta.
  apply (fresh_download_succeeds plain_digest floor3 (video (Some 20))
           (nothing_yet [answer [x61; x62] 70]) [x61; x62] true 70 []);
    try (vm_compute; reflexivity).
  discriminate.
Defined.

Lemma empty_download_fails_witness :
  let r := download_media plain_digest floor3 (video (Some 20))
             (nothing_yet [answer [] 70]) in
  r.1 = Ret false ∧ dir r.2 = ∅.
Proof.
  cbv zeta.
  apply (empty_download_fails plain_digest floor3 (video (Some 20))
           (nothing_yet [answer [] 70]) true 70 []); vm_compute; reflexivity.
Defined.

(** ** The loop over two items *)

Lemma download_loop_on_cleanup_errors_witness :
  (∃ w', download_loop plain_digest ends_in_mp4 (left_of 7) floor3 2 0
           [video None; video (Some 8)] two_videos
         = download_loop plain_digest ends_in_mp4 (left_of 7) floor3 2 1
             [video (Some 8)] w' ∧
         dir w' = dir two_videos ∧ net w' = net two_videos ∧
         requests (trace w') = requests (trace two_videos)) ∧
  (download_loop plain_digest ends_in_mp4 (left_of 7) floor3 2 0
     [video (Some 5); video (Some 8)] two_videos
   = (Ret tt, (disk_cleanup ends_in_mp4 (left_of 7) floor3 (video (Some 5)) two_videos).2) ∧
   net (disk_cleanup ends_in_mp4 (left_of 7) floor3 (video (Some 5)) two_videos).2
     = net two_videos ∧
   requests (trace (disk_cleanup ends_in_mp4 (left_of 7) floor3 (video (Some 5))
                      two_videos).2)
     = requests (trace two_videos)).
Proof.
  split.
  - apply (download_loop_on_cleanup_errors plain_digest ends_in_mp4 (left_of 7) floor3
             2 0 (video None) [video (Some 8)] two_videos); [simpl; lia|].
    vm_compute. reflexivity.
  - apply (download_loop_on_cleanup_errors plain_digest ends_in_mp4 (left_of 7) floor3
             2 0 (video (Some 5)) [video (Some 8)] two_videos); [simpl; lia|].
    vm_compute. reflexivity.
Defined.

(** ** How the clean-up ends, on two videos *)

(** Five bytes free, five required, a reference published at 8: [b.mp4]
    goes, and six bytes are free. *)
Lemma disk_cleanup_returns_with_room_witness :
  required floor3 (video (Some 8))
    < left_of 8 (dir (disk_cleanup ends_in_mp4 (left_of 8) floor3 (video (Some 8))
                        two_videos).2).
Proof.
  apply (disk_cleanup_returns_with_room ends_in_mp4 (left_of 8) floor3 (video (Some 8))
           two_videos).
  vm_compute. reflexivity.
Defined.

(** Two bytes free and a reference published at 100: both videos go, and
    the five bytes free are still not more than the five required. *)
Lemma disk_cleanup_exits_when_empty_witness :
  1 = 1 ∧ truthy (date (video (Some 100))) = true ∧
  left_of 5 (dir (disk_cleanup ends_in_mp4 (left_of 5) floor3 (video (Some 100))
                    two_videos).2)
    ≤ required floor3 (video (Some 100)) ∧
  ∀ q g, dir (disk_cleanup ends_in_mp4 (left_of 5) floor3 (video (Some 100))
                two_videos).2 !! q = Some g →
         ends_in_mp4 q = false.
Proof.
  apply (disk_cleanup_exits_when_empty ends_in_mp4 (left_of 5) floor3 (video (Some 100))
           two_videos 1).
  vm_compute. reflexivity.
Defined.

(** Four bytes free and a reference published at 8: [b.mp4] goes, [a.mp4],
    modified at 10, stays, and the limit is reached. *)
Lemma disk_cleanup_limit_keeps_recent_witness :
  truthy (date (video (Some 8))) = true ∧
  left_of 7 (dir (disk_cleanup ends_in_mp4 (left_of 7) floor3 (video (Some 8))
                    two_videos).2)
    ≤ required floor3 (video (Some 8)) ∧
  ∀ q g, dir (disk_cleanup ends_in_mp4 (left_of 7) floor3 (video (Some 8))
                two_videos).2 !! q = Some g →
         ends_in_mp4 q = true → val (date (video (Some 8))) ≤ mtime g.
Proof.
  apply (disk_cleanup_limit_keeps_recent ends_in_mp4 (left_of 7) floor3 (video (Some 8))
           two_videos).
  vm_compute. reflexivity.
Defined.

Lemma disk_cleanup_evicts_oldest_first_witness :
  mtime (mkFile [x01] 5) ≤ mtime (mkFile [x01; x02] 10).
Proof.
  apply (disk_cleanup_evicts_oldest_first ends_in_mp4 (left_of 7) floor3 (video (Some 8))
           two_videos "b.mp4" "a.mp4"); vm_compute; reflexivity.
Defined.

(** ** What [download_media] leaves behind, for [c.mp4] *)

(** Beside the two videos, [c.mp4] is downloaded: [a.mp4] is as it was. *)
Lemma download_media_touches_own_files_witness :
  let w := mkWorld (dir two_videos) [answer [x61; x62] 70] [] in
  dir (download_media plain_digest floor3 (video (Some 20)) w).2 !! "a.mp4"
    = dir w !! "a.mp4".
Proof.
  cbv zeta.
  apply (download_media_touches_own_files plain_digest floor3 (video (Some 20))
           (mkWorld (dir two_videos) [answer [x61; x62] 70] []) "a.mp4");
    vm_compute; discriminate.
Defined.

(** A staging file of one byte, the second byte arrives. *)
Lemma download_media_return_clears_staging_witness :
  dir (download_media plain_digest floor3 (video (Some 20))
         (staged [x61] [answer [x62] 60])).2 !! part (find_file (video (Some 20))) = None.
Proof.
  apply (download_media_return_clears_staging plain_digest floor3 (video (Some 20))
           (staged [x61] [answer [x62] 60]) true).
  vm_compute. reflexivity.
Defined.

Lemma download_media_success_is_valid_witness :
  let r := download_media plain_digest floor3 (video (Some 20))
             (nothing_yet [answer [x61; x62] 70]) in
  (∃ f, dir r.2 !! find_file (video (Some 20)) = Some f ∧
        size_mismatch (video (Some 20)) f = false) ∧
  (check_media plain_digest (mkSettings 0 0 true false) (video (Some 20)) r.2).1 = Ret true.
Proof.
  cbv zeta.
  destruct (download_media_success_is_valid plain_digest floor3 (mkSettings 0 0 true false)
              (video (Some 20)) (nothing_yet [answer [x61; x62] 70])
              ltac:(vm_compute; reflexivity)) as [Hfits Hvalid].
  split; [exact Hfits|]. apply Hvalid. reflexivity.
Defined.

Lemma download_media_resumes_from_size_witness :
  let r := download_media plain_digest floor3 (video (Some 20))
             (staged [x61] [answer [x62] 60]) in
  r.1 = Ret true ∧
  dir r.2 = <["c.mp4" := stamped (video (Some 20)) (mkFile [x61; x62] 60)]>
              (delete "c.mp4.part" {["c.mp4.part" := mkFile [x61] 50]}) ∧
  requests (trace r.2) = [("http://host/c.mp4", 1)].
Proof.
  cbv zeta.
  apply (download_media_resumes_from_size plain_digest floor3 (video (Some 20))
           (staged [x61] [answer [x62] 60]) (mkFile [x61] 50) [x62] true 60 []);
    vm_compute; reflexivity.
Defined.

(** Three bytes expected, one staged, one more arrives before the
    connection breaks. *)
Lemma download_media_interrupted_resume_witness :
  let w := staged [x61] [Body [x62] true false 60] in
  let r := download_media plain_digest floor3 (clip (Some 3) None (Some 20)) w in
  r.1 = Raise ConnectionError ∧
  dir r.2 = <["c.mp4.part" := mkFile [x61; x62] 60]> (dir w) ∧
  requests (trace r.2) = [("http://host/c.mp4", 1)].
Proof.
  cbv zeta.
  apply (download_media_interrupted_resume plain_digest floor3 (clip (Some 3) None (Some 20))
           (staged [x61] [Body [x62] true false 60]) (mkFile [x61] 50) [x62] true 60 []);
    vm_compute; reflexivity.
Defined.

(** The first call receives [a] and breaks, the second receives [b]. *)
Lemma download_media_broken_then_resumed_witness :
  let w := nothing_yet [Body [x61] true false 60; answer [x62] 70] in
  let first := download_media plain_digest floor3 (video (Some 20)) w in
  let second := download_media plain_digest floor3 (video (Some 20)) first.2 in
  first.1 = Raise ConnectionError ∧
  second.1 = Ret true ∧
  dir second.2 = <["c.mp4" := stamped (video (Some 20)) (mkFile [x61; x62] 70)]> ∅ ∧
  requests (trace second.2) = [("http://host/c.mp4", 1); ("http://host/c.mp4", 0)].
Proof.
  cbv zeta.
  apply (download_media_broken_then_resumed plain_digest floor3 (video (Some 20))
           (nothing_yet [Body [x61] true false 60; answer [x62] 70])
           [x61] [x62] true true 60 70 []);
    try (vm_compute; reflexivity).
  discriminate.
Defined.

(** ** A whole pass *)

(** [c.mp4] is there, and nothing asks for files to be checked. *)
Lemma download_all_up_to_date_witness :
  let w := mkWorld {["c.mp4" := mkFile [x61; x62] 20]} [answer [x61; x62] 70] [] in
  let r := download_all plain_digest ends_in_mp4 (left_of 100) floor3 [video (Some 20)] w in
  r.1 = Ret tt ∧ dir r.2 = dir w ∧ net r.2 = net w ∧
  requests (trace r.2) = requests (trace w).
Proof.
  cbv zeta.
  apply (download_all_up_to_date plain_digest ends_in_mp4 (left_of 100) floor3
           [video (Some 20)]
           (mkWorld {["c.mp4" := mkFile [x61; x62] 20]} [answer [x61; x62] 70] [])).
  repeat constructor.
Defined.

(** A floor of three bytes, and a first item of unknown size. *)
Lemma download_loop_unknown_size_aborts_witness :
  download_loop plain_digest ends_in_mp4 (left_of 100) floor3 2 0
    [clip None None (Some 20); video (Some 20)] (nothing_yet [answer [x61; x62] 70])
  = (Raise AssertionError, nothing_yet [answer [x61; x62] 70]).
Proof.
  apply (download_loop_unknown_size_aborts plain_digest ends_in_mp4 (left_of 100) floor3
           2 0 (clip None None (Some 20)) [video (Some 20)]
           (nothing_yet [answer [x61; x62] 70])); [simpl; lia|reflexivity].
Defined.

(** Without floor, [c.mp4] is downloaded beside the two videos. *)
Lemma download_all_foreign_files_witness :
  let s := mkSettings 0 0 false false in
  let w := mkWorld (dir two_videos) [answer [x61; x62] 70] [] in
  let r := download_all plain_digest ends_in_mp4 (left_of 100) s [video (Some 20)] w in
  kept_or_evicted ends_in_mp4 "a.mp4" w r.2 ∧ dir r.2 !! "a.mp4" = dir w !! "a.mp4".
Proof.
  cbv zeta.
  destruct (download_all_foreign_files plain_digest ends_in_mp4 (left_of 100)
              (mkSettings 0 0 false false) [video (Some 20)]
              (mkWorld (dir two_videos) [answer [x61; x62] 70] []) "a.mp4")
    as [Hkept Hsame].
  - repeat constructor; vm_compute; discriminate.
  - split; [exact Hkept|]. apply Hsame. simpl. lia.
Defined.

(** ** The loops over blocks *)

(** Two bytes, one at a time, of two announced. *)
Lemma transfer_loop_writes_body_witness :
  ∃ shown,
    transfer_loop 3 (shows_progress true true 2) 1 2 [x61; x62] [] 0 []
      = (Ret tt, ([x61; x62], 2, shown)) ∧
    Forall (λ b, length b = 70%nat) shown ∧
    (shows_progress true true 2 = true → 2 = 0 + Z.of_nat (length [x61; x62]) →
     head shown = Some (replicate 70 "#"%char)).
Proof.
  apply (transfer_loop_writes_body true true 1 2 [x61; x62] [] 0). left. lia.
Defined.

(** A rate limit of minus one megabyte a second. *)
Lemma transfer_loop_negative_chunk_witness :
  ∃ shown,
    transfer_loop 1 false (-1048576) 2 [x61; x62] [] 0 []
      = (Raise ValueError, ([], 0, shown)).
Proof.
  apply (transfer_loop_negative_chunk 0 false (-1048576) 2 [x61; x62] [] 0). lia.
Defined.
